(** * combine-pdf.py: line wrapping, page flow and the processed-episodes log

    A shallow embedding of [src/combine-pdf.py].

    - Python [str] values are [string]s; a character is a code point below
      256, which is enough for every branch the script takes on characters
      (white space, line breaks, decimal digits, the suffix [.txt]).
    - [stringWidth] belongs to the PDF library, so the wrapper is stated
      over an arbitrary width function with rational values.
    - The page geometry is integral (points): the letter page is 612 x 792
      and the margins of the script are integers, so every cursor value of
      the script is an integer and [Z] is exact.
    - The canvas and the log file are only written, never read back, during
      [create_pdf]; a run is therefore the list of the calls it makes, in
      order, and a crash point is a prefix of that list. *)

From Stdlib Require Import Ascii String QArith DecimalString.
From Stdlib Require DecimalFacts DecimalPos DecimalZ.
From Stdlib Require Import Sorted.
From stdpp Require Import gmap strings list.

Local Open Scope string_scope.
Local Open Scope list_scope.
Local Open Scope Z_scope.

(** ** Python string primitives *)

Module Py.

(** [str.isspace] on a code point below 256. *)
Definition isspace (c : ascii) : bool :=
  let n := N_of_ascii c in
  ((9 <=? n) && (n <=? 13) || (28 <=? n) && (n <=? 32)
   || (n =? 133) || (n =? 160))%N.

Definition isdigit (c : ascii) : bool :=
  let n := N_of_ascii c in ((48 <=? n) && (n <=? 57))%N.

Definition LF : ascii := ascii_of_N 10.
Definition CR : ascii := ascii_of_N 13.

(** [s.split('\n')]: always at least one piece. *)
Fixpoint split_nl (s : string) : list string :=
  match s with
  | EmptyString => [""]
  | String c s' =>
      if Ascii.eqb c LF then "" :: split_nl s'
      else match split_nl s' with
           | h :: t => String c h :: t
           | [] => [String c ""]
           end
  end.

(** [s.lstrip()], [s.rstrip()] and [s.strip()]. *)
Fixpoint lstrip (s : string) : string :=
  match s with
  | EmptyString => ""
  | String c s' => if isspace c then lstrip s' else s
  end.

Fixpoint rstrip (s : string) : string :=
  match s with
  | EmptyString => ""
  | String c s' =>
      match rstrip s' with
      | EmptyString => if isspace c then "" else String c ""
      | r => String c r
      end
  end.

Definition strip (s : string) : string := rstrip (lstrip s).

(** [s.split()]: the maximal runs of characters that are not white space. *)
Fixpoint split (s : string) : list string :=
  match s with
  | EmptyString => []
  | String c s' =>
      if isspace c then split s'
      else match s' with
           | EmptyString => [String c ""]
           | String d _ =>
               if isspace d then String c "" :: split s'
               else match split s' with
                    | w :: ws => String c w :: ws
                    | [] => [String c ""]
                    end
           end
  end.

(** A line boundary of [str.splitlines], among code points below 256. *)
Definition islinebreak (c : ascii) : bool :=
  let n := N_of_ascii c in
  ((10 <=? n) && (n <=? 13) || (28 <=? n) && (n <=? 30) || (n =? 133))%N.

(** [s.splitlines()]: no piece for the end of the text, CR LF is one
    boundary. *)
Fixpoint splitlines (s : string) : list string :=
  match s with
  | EmptyString => []
  | String c s' =>
      if islinebreak c then
        match s' with
        | String d s'' =>
            if Ascii.eqb c CR && Ascii.eqb d LF then "" :: splitlines s''
            else "" :: splitlines s'
        | EmptyString => [""]
        end
      else match splitlines s' with
           | h :: t => String c h :: t
           | [] => [String c ""]
           end
  end.

(** [str(n)] for an [int], and [str(None)]. *)
Definition str_int (n : Z) : string := NilZero.string_of_int (Z.to_int n).

Definition str (v : option Z) : string :=
  match v with
  | Some n => str_int n
  | None => "None"
  end.

(** [s.endswith(suffix)]. *)
Definition endswith (s suffix : string) : bool :=
  let n := String.length s in
  let k := String.length suffix in
  (k <=? n)%nat && String.eqb (substring (n - k) k s) suffix.

End Py.

(** ** [wrap_text] *)

Section Wrap.

(** [stringWidth(text, fontName, fontSize)] of the PDF library. *)
Variable stringWidth : string -> string -> Z -> Q.

Section Loop.

Variables (width : Q) (font_name : string) (font_size : Z).

(** One round of the inner [for word in words] loop; the state is the pair
    of [wrapped_lines] and [current_line]. *)
Definition wrap_word (st : list string * string) (word : string)
  : list string * string :=
  let '(wrapped_lines, current_line) := st in
  if Qle_bool (stringWidth (current_line +:+ word) font_name font_size) width
  then (wrapped_lines, current_line +:+ (word +:+ " "))
  else (wrapped_lines ++ [current_line], word +:+ " ").

(** One round of the outer [for line in lines] loop. *)
Definition wrap_line (wrapped_lines : list string) (line : string)
  : list string :=
  if String.eqb (Py.strip line) "" then wrapped_lines ++ [line]
  else
    let '(wrapped_lines', current_line) :=
      fold_left wrap_word (Py.split line) (wrapped_lines, "") in
    wrapped_lines' ++ [current_line].

End Loop.

(** The [canvas] argument of the source is never used and is left out. *)
Definition wrap_text (text : string) (width : Q)
  (font_name : string) (font_size : Z) : list string :=
  fold_left (wrap_line width font_name font_size) (Py.split_nl text) [].

End Wrap.

(** The lines one input segment adds to [wrapped_lines]. *)
Definition segment_lines (stringWidth : string -> string -> Z -> Q)
  (width : Q) (font_name : string) (font_size : Z) (line : string)
  : list string :=
  wrap_line stringWidth width font_name font_size [] line.

(** The lines the inner loop still emits from [current_line] with [words]
    left to read, the flush after the loop included. *)
Fixpoint greedy (stringWidth : string -> string -> Z -> Q) (width : Q)
  (font_name : string) (font_size : Z) (current_line : string)
  (words : list string) : list string :=
  match words with
  | [] => [current_line]
  | word :: words' =>
      if Qle_bool (stringWidth (current_line +:+ word) font_name font_size)
           width
      then greedy stringWidth width font_name font_size
             (current_line +:+ (word +:+ " ")) words'
      else current_line
           :: greedy stringWidth width font_name font_size (word +:+ " ")
                words'
  end.

(** A fixed-pitch width: every character is one unit wide. *)
Definition unit_width (s : string) (_ : string) (_ : Z) : Q :=
  inject_Z (Z.of_nat (String.length s)).

(** ** Files and errors *)

Inductive exn := IsADirectoryError | FileNotFoundError.

Inductive result (A : Type) :=
| Ok (a : A)
| Raise (e : exn).
Arguments Ok {A} a.
Arguments Raise {A} e.

#[global] Instance result_bind : MBind result := fun A B k r =>
  match r with
  | Ok a => k a
  | Raise e => Raise e
  end.

(** What a path names: a text file with its decoded content, or something
    that exists and cannot be opened for reading. *)
Inductive node :=
| File (content : string)
| Directory.

(** The transcribe directory: [listdir] is the order in which [os.listdir]
    returns the names, [files] what each name holds. Paths are names
    relative to that directory. *)
Record world := {
  listdir : list string;
  files : gmap string node
}.

Definition get_processed_episodes (w : world) (log_file_path : string)
  : result (gset string) :=
  match files w !! log_file_path with
  | Some (File content) => Ok (list_to_set (Py.splitlines content))
  | Some Directory => Raise IsADirectoryError
  | None => Ok ∅
  end.

Definition read_file_content (w : world) (file_path : string)
  : result string :=
  match files w !! file_path with
  | Some (File content) => Ok content
  | Some Directory => Raise IsADirectoryError
  | None => Raise FileNotFoundError
  end.

(** ** The canvas and [create_pdf] *)

Module Margins.
Record t := { left : Z; top : Z; bottom : Z; right : Z }.
End Margins.

(** The calls a run makes on the canvas and on the log file. *)
Inductive call :=
| Canvas (filename : string)
| setFont (psfontname : string) (size : Z)
| drawString (x y : Z) (text : string)
| showPage
| save
| log_write (log_file_path : string) (data : string).

Definition nl : string := String Py.LF "".

(** [update_log_file]: one write of the identifier and a newline, in append
    mode. *)
Definition update_log_file (log_file_path episode_number : string)
  : list call :=
  [log_write log_file_path (episode_number +:+ nl)].

Definition item : Type := option Z * string.

Section Pdf.

Variable stringWidth : string -> string -> Z -> Q.

(** [reportlab.lib.pagesizes.letter], width and height in points. *)
Variable letter : Z * Z.

Definition add_page_header_footer (episode_number : option Z)
  (margins : Margins.t) : list call :=
  let '(width, height) := letter in
  [ drawString (Margins.left margins) (height - Margins.top margins)
      ("Episode " +:+ Py.str episode_number);
    drawString (Margins.left margins) (Margins.bottom margins)
      ("Episode " +:+ Py.str episode_number) ].

(** Lines 77-83: one round of the index loop on the cursor and the calls
    made so far. *)
Definition index_entry (margins : Margins.t) (st : Z * list call)
  (it : item) : Z * list call :=
  let '(width, height) := letter in
  let '(y_position, out) := st in
  let '(episode_number, _) := it in
  let '(y_position, out) :=
    if y_position <=? Margins.bottom margins + 30
    then (height - Margins.top margins - 60,
          out ++ [showPage] ++ add_page_header_footer episode_number margins)
    else (y_position, out) in
  (y_position - 14,
   out ++ [drawString (Margins.left margins) y_position
             ("Episode " +:+ Py.str episode_number)]).

(** Lines 106-111: one round of the body loop. *)
Definition body_line (margins : Margins.t) (episode_number : option Z)
  (st : Z * list call) (line : string) : Z * list call :=
  let '(width, height) := letter in
  let '(y_position, out) := st in
  let '(y_position, out) :=
    if y_position <=? Margins.bottom margins + 30
    then (height - Margins.top margins - 60,
          out ++ [showPage] ++ add_page_header_footer episode_number margins)
    else (y_position, out) in
  (y_position - 14,
   out ++ [drawString (Margins.left margins) y_position line]).

(** Lines 89-115: one round of the transcript loop. *)
Definition episode (processed_episodes : gset string)
  (margins : Margins.t) (log_file_path : string) (out : list call)
  (it : item) : list call :=
  let '(width, height) := letter in
  let '(episode_number, text) := it in
  if bool_decide (Py.str episode_number ∈ processed_episodes) then out
  else
    let out := out ++ add_page_header_footer episode_number margins in
    let out := out ++ [setFont "Helvetica-Bold" 14] in
    let y_position := height - Margins.top margins - 60 in
    let out :=
      out ++ [drawString (Margins.left margins) y_position
                ("Episode " +:+ Py.str episode_number)] in
    let y_position := y_position - 14 in
    let out := out ++ [setFont "Helvetica" 12] in
    let wrapped_text :=
      wrap_text stringWidth text
        (inject_Z (width - Margins.left margins - Margins.right margins))
        "Helvetica" 12 in
    let '(_, out) :=
      fold_left (body_line margins episode_number) wrapped_text
        (y_position, out) in
    let out := out ++ update_log_file log_file_path (Py.str episode_number) in
    out ++ [showPage].

Definition create_pdf (w : world) (transcripts : list item)
  (output_filename : string) (margins : Margins.t) (log_file_path : string)
  : result (list call) :=
  processed_episodes ← get_processed_episodes w log_file_path;
  let out := [Canvas output_filename] in
  let '(width, height) := letter in
  let out := out ++ [setFont "Helvetica-Bold" 14] in
  let y_position := height - Margins.top margins - 60 in
  let out :=
    out ++ [drawString (Margins.left margins) y_position
              "Index of Episodes"] in
  let y_position := y_position - 16 in
  let out := out ++ [setFont "Helvetica" 12] in
  let '(_, out) :=
    fold_left (index_entry margins) transcripts (y_position, out) in
  let out := out ++ [showPage] in
  let out :=
    fold_left (episode processed_episodes margins log_file_path)
      transcripts out in
  Ok (out ++ [save]).

End Pdf.

(** ** The script *)

(** The value of the leading run of decimal digits of [s], after [acc]. *)
Fixpoint int_digits (acc : Z) (s : string) : Z :=
  match s with
  | EmptyString => acc
  | String c s' =>
      if Py.isdigit c
      then int_digits (10 * acc + (Z.of_N (N_of_ascii c) - 48)) s'
      else acc
  end.

(** [re.search(r'\d+', filename)] and [int] of the match. *)
Fixpoint extract_episode_number (filename : string) : option Z :=
  match filename with
  | EmptyString => None
  | String c s' =>
      if Py.isdigit c then Some (int_digits 0 filename)
      else extract_episode_number s'
  end.

(** [sorted(l, key=key)]: stable, ascending. *)
Fixpoint insert_by {A : Type} (key : A -> Z) (x : A) (l : list A) : list A :=
  match l with
  | [] => [x]
  | y :: l' => if key x <=? key y then x :: l else y :: insert_by key x l'
  end.

Definition sorted {A : Type} (l : list A) (key : A -> Z) : list A :=
  foldr (insert_by key) [] l.

Definition log_file_path : string := "processed_episodes.log".
Definition output_pdf : string := "transcripts.pdf".

Definition margins : Margins.t :=
  {| Margins.left := 50; Margins.top := 50;
     Margins.bottom := 50; Margins.right := 50 |}.

Definition letter : Z * Z := (612, 792).

(** Lines 133-143: one round of the loop that fills [transcripts]. *)
Definition add_transcript (w : world) (acc : result (list item))
  (filename : string) : result (list item) :=
  transcripts ← acc;
  if Py.endswith filename ".txt" then
    let episode_number := extract_episode_number filename in
    processed ← get_processed_episodes w log_file_path;
    if bool_decide (Py.str episode_number ∈ processed) then Ok transcripts
    else
      file_content ← read_file_content w filename;
      Ok (transcripts ++ [(episode_number, file_content)])
  else Ok transcripts.

Definition transcripts (w : world) : result (list item) :=
  fold_left (add_transcript w)
    (sorted (listdir w)
       (fun f => default 0 (extract_episode_number f)))
    (Ok []).

(** The whole script, console output left out. *)
Definition main (stringWidth : string -> string -> Z -> Q) (w : world)
  : result (list call) :=
  ts ← transcripts w;
  create_pdf stringWidth letter w ts output_pdf margins log_file_path.

(** ** Vocabulary of the properties *)

(** A token is a string that [split] returns whole. *)
Definition token (w : string) : Prop := Py.split w = [w].

(** A candidate line is empty or ends with the synthetic space. *)
Definition candidate (s : string) : Prop :=
  s = "" \/ exists a, s = a +:+ " ".

(** [strip] leaves nothing exactly when every character is white space. *)
Fixpoint blank (s : string) : bool :=
  match s with
  | EmptyString => true
  | String c s' => Py.isspace c && blank s'
  end.

(** What the inner loop guarantees of a line it emits: it is empty, or it is
    a string [s] followed by the synthetic space, where [s] was measured and
    fits, or [s] is one word [ok] holds of and is too wide by itself. *)
Definition fitted (stringWidth : string -> string -> Z -> Q) (width : Q)
  (font_name : string) (font_size : Z) (ok : string -> Prop) (L : string)
  : Prop :=
  L = "" \/
  exists s, L = s +:+ " " /\
    (stringWidth s font_name font_size <= width \/
     (ok s /\ width < stringWidth s font_name font_size))%Q.

(** The calls of the body loop from cursor [y], in closed form. *)
Fixpoint body_calls (page_width page_height : Z) (margins : Margins.t)
  (episode_number : option Z) (y : Z) (lines : list string) : list call :=
  match lines with
  | [] => []
  | line :: rest =>
      if y <=? Margins.bottom margins + 30
      then [showPage]
           ++ add_page_header_footer (page_width, page_height)
                episode_number margins
           ++ drawString (Margins.left margins)
                (page_height - Margins.top margins - 60) line
              :: body_calls page_width page_height margins episode_number
                   (page_height - Margins.top margins - 60 - 14) rest
      else drawString (Margins.left margins) y line
           :: body_calls page_width page_height margins episode_number
                (y - 14) rest
  end.

(** The calls of the index loop from cursor [y], in closed form. *)
Fixpoint index_calls (page_width page_height : Z) (margins : Margins.t)
  (y : Z) (ts : list item) : list call :=
  match ts with
  | [] => []
  | (episode_number, _) :: rest =>
      if y <=? Margins.bottom margins + 30
      then [showPage]
           ++ add_page_header_footer (page_width, page_height)
                episode_number margins
           ++ drawString (Margins.left margins)
                (page_height - Margins.top margins - 60)
                ("Episode " +:+ Py.str episode_number)
              :: index_calls page_width page_height margins
                   (page_height - Margins.top margins - 60 - 14) rest
      else drawString (Margins.left margins) y
             ("Episode " +:+ Py.str episode_number)
           :: index_calls page_width page_height margins (y - 14) rest
  end.

(** Lines drawn one under the other from [y], no page break. *)
Fixpoint draws_from (margins : Margins.t) (y : Z) (lines : list string)
  : list call :=
  match lines with
  | [] => []
  | line :: rest =>
      drawString (Margins.left margins) y line
      :: draws_from margins (y - 14) rest
  end.

Definition is_log_write (c : call) : bool :=
  match c with log_write _ _ => true | _ => false end.

Definition is_showPage (c : call) : bool :=
  match c with showPage => true | _ => false end.

(** The display lines of an item. *)
Definition wrapped_body (stringWidth : string -> string -> Z -> Q)
  (page_width : Z) (margins : Margins.t) (text : string) : list string :=
  wrap_text stringWidth text
    (inject_Z (page_width - Margins.left margins - Margins.right margins))
    "Helvetica" 12.

(** Everything an unprocessed item draws: header and footer, title, body. *)
Definition item_draws (stringWidth : string -> string -> Z -> Q)
  (page_width page_height : Z) (margins : Margins.t) (it : item)
  : list call :=
  add_page_header_footer (page_width, page_height) (fst it) margins
  ++ [setFont "Helvetica-Bold" 14;
      drawString (Margins.left margins)
        (page_height - Margins.top margins - 60)
        ("Episode " +:+ Py.str (fst it));
      setFont "Helvetica" 12]
  ++ body_calls page_width page_height margins (fst it)
       (page_height - Margins.top margins - 60 - 14)
       (wrapped_body stringWidth page_width margins (snd it)).

(** Everything one round of the transcript loop adds. *)
Definition item_calls (stringWidth : string -> string -> Z -> Q)
  (page_width page_height : Z) (margins : Margins.t)
  (log_file_path : string) (processed : gset string) (it : item)
  : list call :=
  if bool_decide (Py.str (fst it) ∈ processed) then []
  else item_draws stringWidth page_width page_height margins it
       ++ [log_write log_file_path (Py.str (fst it) +:+ nl); showPage].

(** The number of body lines that go on the first page of an item: the
    cursor starts 14 below the title and a line is drawn without a page
    break while the cursor is above bottom margin + 30. *)
Definition first_page_lines (letter : Z * Z) (m : Margins.t) : nat :=
  Z.to_nat
    ((snd letter - Margins.top m - 60 - 14 - (Margins.bottom m + 30) + 13)
     / 14).

(** ** Sample inputs *)

Definition demo_world : world :=
  {| listdir := ["10.txt"; "processed_episodes.log"; "2.txt"; "ep1.txt"];
     files := list_to_map
       [("10.txt", File "ten"); ("2.txt", File "two");
        ("ep1.txt", File "one");
        ("processed_episodes.log", File ("2" +:+ nl))] |}.

(** A body of 43 short lines: with the page and margins of the script 42
    lines go on the first page. *)
Definition body_43 : string := String.concat nl (repeat "line" 43).

(** A run over two short items, with no log yet. *)
Definition world_fresh : world := {| listdir := []; files := ∅ |}.

Definition two_items : list item :=
  [(Some 1, "hello world"); (Some 2, "bye")].

Definition calls_fresh : list call :=
  match create_pdf unit_width letter world_fresh two_items output_pdf
          margins log_file_path with
  | Ok calls => calls
  | Raise _ => []
  end.

(** The directory holds episode 1 and a log that lists it. *)
Definition world_seen : world :=
  {| listdir := ["1.txt"; "processed_episodes.log"];
     files := list_to_map
       [("1.txt", File "Hello world.");
        ("processed_episodes.log", File ("1" +:+ nl))] |}.

(** ** Vocabulary of the further properties *)

(** Every character of [s] satisfies [P]. *)
Fixpoint all_chars (P : ascii -> bool) (s : string) : bool :=
  match s with
  | EmptyString => true
  | String c s' => P c && all_chars P s'
  end.

(** [s] does not begin with a decimal digit. *)
Definition no_leading_digit (s : string) : bool :=
  match s with
  | EmptyString => true
  | String c _ => negb (Py.isdigit c)
  end.

(** The sort key of the script: [int(extract_episode_number(f) or 0)]. *)
Definition sort_key (filename : string) : Z :=
  default 0 (extract_episode_number filename).

(** What [open(path, 'a')] and one [write] do to the files: a missing file
    is created with the data, a text file gets the data at its end, and a
    directory cannot be opened. *)
Definition write_append (fs : gmap string node) (path data : string)
  : result (gmap string node) :=
  match fs !! path with
  | None => Ok (<[path := File data]> fs)
  | Some (File content) => Ok (<[path := File (content +:+ data)]> fs)
  | Some Directory => Raise IsADirectoryError
  end.

(** The log writes among the calls of a run, applied in order. *)
Fixpoint apply_log_writes (fs : gmap string node) (calls : list call)
  : result (gmap string node) :=
  match calls with
  | [] => Ok fs
  | log_write path data :: rest =>
      fs' ← write_append fs path data; apply_log_writes fs' rest
  | _ :: rest => apply_log_writes fs rest
  end.

(** The set the script tests identifiers against; empty when the log cannot
    be read (the loop then stops at the first [.txt] name). *)
Definition processed_or_empty (w : world) : gset string :=
  match get_processed_episodes w log_file_path with
  | Ok processed => processed
  | Raise _ => ∅
  end.

(** What the loop of lines 133-143 appends for one name when nothing is
    raised. *)
Definition selected_one (w : world) (processed : gset string)
  (filename : string) : list item :=
  if Py.endswith filename ".txt" then
    if bool_decide (Py.str (extract_episode_number filename) ∈ processed)
    then []
    else match read_file_content w filename with
         | Ok file_content =>
             [(extract_episode_number filename, file_content)]
         | Raise _ => []
         end
  else [].

Definition selected (w : world) (processed : gset string)
  (names : list string) : list item :=
  flat_map (selected_one w processed) names.

(** The order key of an item: its identifier, 0 when it has none. *)
Definition item_key (it : item) : Z := default 0 (fst it).

(** A character other than the line feed. *)
Definition not_lf (c : ascii) : bool := negb (Ascii.eqb c Py.LF).

(** Where a call may draw: the header line, the footer line, or the band
    of the text, above bottom margin + 30 and up to page height - top
    margin - 60. *)
Definition draws_in_place (page_height : Z) (margins : Margins.t)
  (c : call) : Prop :=
  match c with
  | drawString x y _ =>
      x = Margins.left margins
      /\ (y = page_height - Margins.top margins
          \/ y = Margins.bottom margins
          \/ Margins.bottom margins + 30 < y
              <= page_height - Margins.top margins - 60)
  | _ => True
  end.

(** The items [create_pdf] does not skip. *)
Definition unprocessed (processed : gset string) (ts : list item)
  : list item :=
  List.filter (fun it => negb (bool_decide (Py.str (fst it) ∈ processed))) ts.

(** The text of the log: empty while the file is missing. *)
Definition log_content (fs : gmap string node) (path : string) : string :=
  match fs !! path with
  | Some (File content) => content
  | _ => ""
  end.

(** A log that can take a new line: it is a text file or missing, and its
    text is empty or ends with a newline. *)
Definition log_terminated (fs : gmap string node) (path : string) : Prop :=
  fs !! path <> Some Directory
  /\ (log_content fs path = ""
      \/ exists c, log_content fs path = c +:+ nl).

(** A character that is not a line boundary of [splitlines]. *)
Definition not_linebreak (c : ascii) : bool := negb (Py.islinebreak c).

(** The directory of [world_seen] after the identifier 2 is appended to the
    log. *)
Definition world_seen_after : world :=
  {| listdir := listdir world_seen;
     files := <["processed_episodes.log" := File ("1" +:+ nl +:+ "2" +:+ nl)]>
                (files world_seen) |}.

(** A directory whose log was edited by hand and lost its last newline. *)
Definition world_cut : world :=
  {| listdir := ["processed_episodes.log"];
     files := {["processed_episodes.log" := File ("1" +:+ nl +:+ "2")]} |}.

Definition world_cut_after : world :=
  {| listdir := ["processed_episodes.log"];
     files := {["processed_episodes.log" :=
                  File ("1" +:+ nl +:+ "23" +:+ nl)]} |}.

(** Two files that carry the same number: both give the identifier 1. *)
Definition world_takes : world :=
  {| listdir := ["1.txt"; "01.txt"];
     files := list_to_map [("1.txt", File "first"); ("01.txt", File "second")] |}.

Definition calls_takes : list call :=
  match main unit_width world_takes with
  | Ok calls => calls
  | Raise _ => []
  end.

(** * Properties *)

(** ** Sample runs *)

Example wrap_text_demo :
  wrap_text unit_width "the quick brown fox" (inject_Z 9) "Helvetica" 12
  = ["the quick "; "brown fox "].
Proof. vm_compute. reflexivity. Qed.

Example transcripts_demo :
  transcripts demo_world = Ok [(Some 1, "one"); (Some 10, "ten")].
Proof. vm_compute. reflexivity. Qed.

(** ** String append and white-space splitting *)

Lemma append_cons (x : ascii) (a b : string) :
  String x a +:+ b = String x (a +:+ b).
Proof. reflexivity. Qed.

Lemma append_nil_l (b : string) : "" +:+ b = b.
Proof. reflexivity. Qed.

Lemma append_assoc (a b c : string) : (a +:+ b) +:+ c = a +:+ (b +:+ c).
Proof.
  induction a as [|x a IH]; [reflexivity|].
  rewrite !append_cons. now f_equal.
Qed.

Lemma append_nil_r (a : string) : a +:+ "" = a.
Proof.
  induction a as [|x a IH]; [reflexivity|]. rewrite append_cons. now f_equal.
Qed.

Lemma length_append (a b : string) :
  String.length (a +:+ b) = (String.length a + String.length b)%nat.
Proof.
  induction a as [|x a IH]; [reflexivity|].
  rewrite append_cons. simpl. now f_equal.
Qed.


Lemma split_cons (c : ascii) (s : string) :
  Py.split (String c s) =
  if Py.isspace c then Py.split s
  else match s with
       | EmptyString => [String c ""]
       | String d _ =>
           if Py.isspace d then String c "" :: Py.split s
           else match Py.split s with
                | w :: ws => String c w :: ws
                | [] => [String c ""]
                end
       end.
Proof. reflexivity. Qed.

Lemma split_cons_nonspace c s :
  Py.isspace c = false ->
  exists w ws, Py.split (String c s) = String c w :: ws.
Proof.
  intros Hc. rewrite split_cons, Hc. destruct s as [|d s'].
  - now exists "", [].
  - destruct (Py.isspace d).
    + now exists "", (Py.split (String d s')).
    + destruct (Py.split (String d s')) as [|w ws];
        [now exists "", [] | now exists w, ws].
Qed.

Lemma token_single (c : ascii) :
  Py.isspace c = false -> token (String c "").
Proof. intros Hc. unfold token. now rewrite split_cons, Hc. Qed.

Lemma split_tokens (s : string) : Forall token (Py.split s).
Proof.
  induction s as [|c s IH]; [constructor|].
  rewrite split_cons. destruct (Py.isspace c) eqn:Hc; [exact IH|].
  destruct s as [|d s'].
  - constructor; [now apply token_single | constructor].
  - destruct (Py.isspace d) eqn:Hd.
    + constructor; [now apply token_single | exact IH].
    + destruct (split_cons_nonspace d s' Hd) as (w & ws & Hw).
      rewrite Hw in IH |- *. inversion IH as [|? ? Htok Hrest]; subst.
      constructor; [|exact Hrest].
      unfold token in *. now rewrite split_cons, Hc, Hd, Htok.
Qed.

Lemma split_append_space (a b : string) :
  Py.split ((a +:+ " ") +:+ b) = Py.split a ++ Py.split b.
Proof.
  induction a as [|c a IH]; [reflexivity|].
  rewrite !append_cons, !split_cons.
  destruct (Py.isspace c) eqn:Hc; [exact IH|].
  destruct a as [|d a'].
  - reflexivity.
  - rewrite !append_cons in *.
    destruct (Py.isspace d) eqn:Hd; [now rewrite IH|].
    rewrite IH. destruct (split_cons_nonspace d a' Hd) as (w & ws & Hw).
    now rewrite Hw.
Qed.


Lemma split_token_space (w : string) :
  token w -> Py.split (w +:+ " ") = [w].
Proof.
  intros Hw. rewrite <- (append_nil_r (w +:+ " ")), split_append_space, Hw.
  reflexivity.
Qed.

Lemma split_candidate_token (cl w : string) :
  candidate cl -> token w ->
  Py.split (cl +:+ (w +:+ " ")) = Py.split cl ++ [w].
Proof.
  intros [->|[a ->]] Hw.
  - rewrite append_nil_l. now apply split_token_space.
  - rewrite split_append_space, split_token_space by exact Hw.
    rewrite <- (append_nil_r (a +:+ " ")), split_append_space.
    simpl. now rewrite app_nil_r.
Qed.

Lemma candidate_step (cl w : string) : candidate (cl +:+ (w +:+ " ")).
Proof. right. exists (cl +:+ w). now rewrite append_assoc. Qed.


Lemma rstrip_nonspace c s : Py.isspace c = false -> Py.rstrip (String c s) <> "".
Proof.
  intros Hc. simpl. destruct (Py.rstrip s); [now rewrite Hc | discriminate].
Qed.

Lemma strip_blank (s : string) :
  String.eqb (Py.strip s) "" = blank s.
Proof.
  unfold Py.strip. induction s as [|c s IH]; [reflexivity|].
  cbn [Py.lstrip blank]. destruct (Py.isspace c) eqn:Hc; [exact IH|].
  simpl. apply String.eqb_neq. now apply rstrip_nonspace.
Qed.

Lemma blank_split (s : string) : blank s = true -> Py.split s = [].
Proof.
  induction s as [|c s IH]; [reflexivity|]. simpl.
  destruct (Py.isspace c); [exact IH | discriminate].
Qed.

(** ** The wrapper *)

Section WrapFacts.

Variable stringWidth : string -> string -> Z -> Q.
Variables (width : Q) (font_name : string) (font_size : Z).

Let measure (s : string) : Q := stringWidth s font_name font_size.
Let lines_of : string -> list string :=
  segment_lines stringWidth width font_name font_size.
Let run : string -> list string -> list string :=
  greedy stringWidth width font_name font_size.

Lemma fold_wrap_word (ws : list string) (wl : list string) (cl : string) :
  let '(wl', cl') :=
    fold_left (wrap_word stringWidth width font_name font_size) ws (wl, cl) in
  wl' ++ [cl'] = wl ++ run cl ws.
Proof.
  revert wl cl. induction ws as [|w ws IH]; intros wl cl; [reflexivity|].
  cbn [fold_left wrap_word]. unfold run in *. cbn [greedy].
  destruct (Qle_bool _ width).
  - apply IH.
  - specialize (IH (wl ++ [cl]) (w +:+ " ")).
    destruct (fold_left _ ws _) as [wl' cl'].
    now rewrite IH, <- app_assoc.
Qed.

Lemma wrap_line_app (wl : list string) (line : string) :
  wrap_line stringWidth width font_name font_size wl line = wl ++ lines_of line.
Proof.
  unfold lines_of, segment_lines, wrap_line.
  destruct (String.eqb (Py.strip line) ""); [reflexivity|].
  pose proof (fold_wrap_word (Py.split line) wl "") as H1.
  pose proof (fold_wrap_word (Py.split line) [] "") as H2.
  destruct (fold_left _ _ (wl, "")) as [a b].
  destruct (fold_left _ _ ([], "")) as [c d].
  now rewrite H1, H2.
Qed.

Lemma lines_of_blank (line : string) :
  blank line = true -> lines_of line = [line].
Proof.
  intros Hb. unfold lines_of, segment_lines, wrap_line.
  now rewrite strip_blank, Hb.
Qed.

Lemma lines_of_words (line : string) :
  blank line = false -> lines_of line = run "" (Py.split line).
Proof.
  intros Hb. unfold lines_of, segment_lines, wrap_line.
  rewrite strip_blank, Hb.
  pose proof (fold_wrap_word (Py.split line) [] "") as H.
  now destruct (fold_left _ _ ([], "")) as [a b].
Qed.

Lemma fold_wrap_line (segs : list string) (wl : list string) :
  fold_left (wrap_line stringWidth width font_name font_size) segs wl
  = wl ++ concat (map lines_of segs).
Proof.
  revert wl. induction segs as [|seg segs IH]; intros wl; simpl.
  - now rewrite app_nil_r.
  - now rewrite IH, wrap_line_app, <- app_assoc.
Qed.

Lemma wrap_text_concat (text : string) :
  wrap_text stringWidth text width font_name font_size
  = concat (map lines_of (Py.split_nl text)).
Proof. unfold wrap_text. now rewrite fold_wrap_line. Qed.

Lemma wrap_text_at (text : string) (pre post : list string) (seg : string) :
  Py.split_nl text = pre ++ seg :: post ->
  wrap_text stringWidth text width font_name font_size
  = concat (map lines_of pre) ++ lines_of seg ++ concat (map lines_of post).
Proof.
  intros H. rewrite wrap_text_concat, H, map_app, concat_app. reflexivity.
Qed.

Lemma run_tokens (ws : list string) (cl : string) :
  candidate cl -> Forall token ws ->
  flat_map Py.split (run cl ws) = Py.split cl ++ ws.
Proof.
  revert cl. unfold run.
  induction ws as [|w ws IH]; intros cl Hcl Hws; cbn [greedy].
  - simpl. reflexivity.
  - inversion Hws as [|? ? Hw Hws']; subst.
    destruct (Qle_bool _ width).
    + rewrite IH by (auto using candidate_step).
      rewrite split_candidate_token by assumption. now rewrite <- app_assoc.
    + cbn [flat_map]. rewrite IH; [|right; now exists w|assumption].
      now rewrite split_token_space.
Qed.

Lemma lines_of_tokens (seg : string) :
  flat_map Py.split (lines_of seg) = Py.split seg.
Proof.
  destruct (blank seg) eqn:Hb.
  - rewrite lines_of_blank by assumption. simpl. apply app_nil_r.
  - rewrite lines_of_words by assumption.
    rewrite run_tokens; [reflexivity | now left | apply split_tokens].
Qed.

Lemma run_head (ws : list string) (cl : string) :
  exists tail rest, run cl ws = (cl +:+ tail) :: rest.
Proof.
  revert cl. unfold run. induction ws as [|w ws IH]; intros cl; cbn [greedy].
  - exists "", []. now rewrite append_nil_r.
  - destruct (Qle_bool _ width).
    + destruct (IH (cl +:+ (w +:+ " "))) as (tail & rest & ->).
      exists ((w +:+ " ") +:+ tail), rest. now rewrite append_assoc.
    + exists "", (greedy stringWidth width font_name font_size (w +:+ " ") ws).
      now rewrite append_nil_r.
Qed.


Lemma run_fitted (ok : string -> Prop) (ws : list string) (cl : string) :
  fitted stringWidth width font_name font_size ok cl -> Forall ok ws ->
  Forall (fitted stringWidth width font_name font_size ok) (run cl ws).
Proof.
  revert cl. unfold run.
  induction ws as [|w ws IH]; intros cl Hcl Hws; cbn [greedy].
  - now constructor.
  - inversion Hws as [|? ? Hw Hws']; subst.
    destruct (Qle_bool _ width) eqn:Hfit.
    + apply IH; [|assumption]. right. exists (cl +:+ w). split.
      * now rewrite append_assoc.
      * left. now apply Qle_bool_iff.
    + constructor; [assumption|]. apply IH; [|assumption].
      right. exists w. split; [reflexivity|].
      destruct (Qlt_le_dec width (measure w)); [right | left]; auto.
Qed.

Section Monotone.

(** A width never shrinks when text is added before or after. *)
Hypothesis measure_suffix : forall a b : string,
  (measure b <= measure (a +:+ b))%Q.
Hypothesis measure_prefix : forall a b : string,
  (measure a <= measure (a +:+ b))%Q.

Variable w : string.
Hypothesis too_wide : (width < measure w)%Q.

Lemma reject_after (cl : string) :
  Qle_bool (stringWidth (cl +:+ w) font_name font_size) width = false.
Proof.
  apply not_true_is_false. intros H. apply Qle_bool_iff in H.
  apply (Qlt_irrefl width). eapply Qlt_le_trans; [exact too_wide|].
  eapply Qle_trans; [apply (measure_suffix cl w) | exact H].
Qed.

Lemma reject_before (y : string) :
  Qle_bool (stringWidth ((w +:+ " ") +:+ y) font_name font_size) width
  = false.
Proof.
  apply not_true_is_false. intros H. apply Qle_bool_iff in H.
  rewrite append_assoc in H.
  apply (Qlt_irrefl width). eapply Qlt_le_trans; [exact too_wide|].
  eapply Qle_trans; [apply (measure_prefix w (" " +:+ y)) | exact H].
Qed.

Lemma run_keeps (ws : list string) : In (w +:+ " ") (run (w +:+ " ") ws).
Proof.
  unfold run. destruct ws as [|y ws]; cbn [greedy]; [now left|].
  rewrite reject_before. now left.
Qed.

Lemma run_alone (ws : list string) (cl : string) :
  In w ws -> In (w +:+ " ") (run cl ws).
Proof.
  revert cl. unfold run.
  induction ws as [|x ws IH]; intros cl Hin; [contradiction|].
  cbn [greedy]. destruct Hin as [->|Hin].
  - rewrite reject_after. right. apply run_keeps.
  - destruct (Qle_bool _ width); [|right]; now apply IH.
Qed.

End Monotone.

End WrapFacts.

(** ** Claims on the wrapper *)

(** C1, as stated, fails: with one unit per character and a usable width of
    2, the text [ab] is wrapped to the single line [ab] plus the synthetic
    space, which measures 3; its only token, [ab], measures 2 and is not
    wider than the usable width. *)
Lemma wrap_text_width_bound_fails :
  ~ Forall (fun L =>
      (unit_width L "Helvetica" 12 <= inject_Z 2)%Q \/
      exists t, Py.split L = [t] /\
                (inject_Z 2 < unit_width t "Helvetica" 12)%Q)
      (wrap_text unit_width "ab" (inject_Z 2) "Helvetica" 12).
Proof.
  change (wrap_text unit_width "ab" (inject_Z 2) "Helvetica" 12)
    with ["ab "].
  intros H. inversion H as [|? ? [Hle | (t & Ht & Hlt)] _]; subst.
  - revert Hle. unfold unit_width, Qle. simpl. lia.
  - change (Py.split "ab ") with ["ab"] in Ht. injection Ht as <-.
    revert Hlt. unfold unit_width, Qlt. simpl. lia.
Qed.

(** C1, amended: every line returned by [wrap_text] is a blank input
    segment copied as it is, or the empty candidate, or a string [s]
    followed by the synthetic space where [measure s <= width], unless [s]
    is a single token of the input whose own width exceeds [width]. The
    bound is on the line without its synthetic space. *)
Theorem wrap_text_width_bound
  (stringWidth : string -> string -> Z -> Q) (text : string) (width : Q)
  (font_name : string) (font_size : Z) :
  Forall (fun L =>
      (blank L = true /\ In L (Py.split_nl text)) \/
      L = "" \/
      exists s, L = s +:+ " " /\
        ((stringWidth s font_name font_size <= width)%Q \/
         ((exists seg, In seg (Py.split_nl text) /\ In s (Py.split seg)) /\
          (width < stringWidth s font_name font_size)%Q)))
    (wrap_text stringWidth text width font_name font_size).
Proof.
  rewrite wrap_text_concat. apply List.Forall_forall. intros L HL.
  apply in_concat in HL as (ls & Hls & HL).
  apply in_map_iff in Hls as (seg & <- & Hseg).
  destruct (blank seg) eqn:Hb.
  - rewrite lines_of_blank in HL by assumption.
    destruct HL as [<-|[]]. now left.
  - rewrite lines_of_words in HL by assumption. right.
    pose proof (run_fitted stringWidth width font_name font_size
                  (fun s => In s (Py.split seg)) (Py.split seg) "") as HF.
    assert (Hall : Forall (fun s => In s (Py.split seg)) (Py.split seg))
      by (apply List.Forall_forall; auto).
    specialize (HF (or_introl eq_refl) Hall).
    rewrite List.Forall_forall in HF.
    destruct (HF L HL) as [->|(s & -> & Hs)]; [now left|].
    right. exists s. split; [reflexivity|].
    destruct Hs as [Hle|[Hin Hlt]]; [now left|right].
    split; [now exists seg | assumption].
Qed.

(** C4: the output is the concatenation, segment by segment, of the lines
    each newline-delimited segment produces, and the white-space separated
    tokens of the lines of a segment are exactly the tokens of the
    segment, in order. *)
Theorem wrap_text_tokens
  (stringWidth : string -> string -> Z -> Q) (text : string) (width : Q)
  (font_name : string) (font_size : Z) :
  wrap_text stringWidth text width font_name font_size
  = concat (map (segment_lines stringWidth width font_name font_size)
              (Py.split_nl text))
  /\ Forall (fun seg =>
       flat_map Py.split
         (segment_lines stringWidth width font_name font_size seg)
       = Py.split seg)
     (Py.split_nl text).
Proof.
  split; [apply wrap_text_concat|].
  apply List.Forall_forall. intros seg _. apply lines_of_tokens.
Qed.

(** A segment made of one token that is too wide gives the empty candidate
    and then the token, whatever the width function. *)
Lemma segment_lines_single_overlong
  (stringWidth : string -> string -> Z -> Q) (width : Q)
  (font_name : string) (font_size : Z) (seg w : string) :
  Py.split seg = [w] ->
  (width < stringWidth w font_name font_size)%Q ->
  segment_lines stringWidth width font_name font_size seg = [""; w +:+ " "].
Proof.
  intros Hw Hwide.
  assert (Hb : blank seg = false).
  { destruct (blank seg) eqn:Hb; [|reflexivity].
    rewrite (blank_split seg Hb) in Hw. discriminate. }
  rewrite lines_of_words by assumption. rewrite Hw. cbn [greedy].
  rewrite append_nil_l. destruct (Qle_bool _ width) eqn:Hfit; [|reflexivity].
  apply Qle_bool_iff in Hfit. exfalso.
  apply (Qlt_irrefl width). eapply Qlt_le_trans; eassumption.
Qed.

(** C5: when widths never shrink as text is added, a token of the input
    that is wider than the usable width comes out whole, followed by the
    synthetic space only, as a line of its own among the lines of its
    segment; [wrap_text] is total, so nothing is raised. *)
Theorem wrap_text_overlong_token
  (stringWidth : string -> string -> Z -> Q) (text : string) (width : Q)
  (font_name : string) (font_size : Z) (seg w : string)
  (measure_suffix : forall a b : string,
     (stringWidth b font_name font_size
      <= stringWidth (a +:+ b) font_name font_size)%Q)
  (measure_prefix : forall a b : string,
     (stringWidth a font_name font_size
      <= stringWidth (a +:+ b) font_name font_size)%Q)
  (Hseg : In seg (Py.split_nl text))
  (Hw : In w (Py.split seg))
  (too_wide : (width < stringWidth w font_name font_size)%Q) :
  In (w +:+ " ") (segment_lines stringWidth width font_name font_size seg)
  /\ In (w +:+ " ") (wrap_text stringWidth text width font_name font_size)
  /\ Py.split (w +:+ " ") = [w].
Proof.
  assert (Hb : blank seg = false).
  { destruct (blank seg) eqn:Hb; [|reflexivity].
    rewrite (blank_split seg Hb) in Hw. contradiction. }
  assert (Hin : In (w +:+ " ")
                  (segment_lines stringWidth width font_name font_size seg)).
  { rewrite lines_of_words by assumption. now apply run_alone. }
  split; [exact Hin|]. split.
  - rewrite wrap_text_concat. apply in_concat.
    eexists. split; [|exact Hin]. now apply in_map.
  - apply split_token_space.
    pose proof (split_tokens seg) as Ht. rewrite List.Forall_forall in Ht. auto.
Qed.

Lemma unit_width_suffix (a b : string) :
  (unit_width b "Helvetica" 12 <= unit_width (a +:+ b) "Helvetica" 12)%Q.
Proof.
  unfold unit_width. rewrite <- Zle_Qle, length_append. lia.
Qed.

Lemma unit_width_prefix (a b : string) :
  (unit_width a "Helvetica" 12 <= unit_width (a +:+ b) "Helvetica" 12)%Q.
Proof.
  unfold unit_width. rewrite <- Zle_Qle, length_append. lia.
Qed.

Lemma wrap_text_overlong_token_witness :
  In "incomprehensibilities "
    (segment_lines unit_width (inject_Z 10) "Helvetica" 12
       "so many incomprehensibilities here")
  /\ In "incomprehensibilities "
       (wrap_text unit_width "so many incomprehensibilities here"
          (inject_Z 10) "Helvetica" 12)
  /\ Py.split "incomprehensibilities " = ["incomprehensibilities"].
Proof.
  apply (wrap_text_overlong_token unit_width
           "so many incomprehensibilities here" (inject_Z 10) "Helvetica" 12
           "so many incomprehensibilities here" "incomprehensibilities"
           unit_width_suffix unit_width_prefix).
  - vm_compute. now left.
  - vm_compute. tauto.
  - vm_compute. reflexivity.
Defined.

(** C6, as stated, fails for a segment of white space: the text made of one
    space is returned as the line holding that space, not as an empty
    line. *)
Lemma wrap_text_blank_line_fails :
  Py.split_nl " " = [] ++ " " :: [] /\
  Py.strip " " = "" /\
  wrap_text unit_width " " (inject_Z 10) "Helvetica" 12
  <> concat (map (segment_lines unit_width (inject_Z 10) "Helvetica" 12) [])
     ++ [""]
     ++ concat (map (segment_lines unit_width (inject_Z 10) "Helvetica" 12) []).
Proof. repeat split. vm_compute. discriminate. Qed.

(** C6, amended: a blank input segment (empty, or white space only)
    produces exactly one output line, the segment itself as it is (so an
    empty line when the segment is empty), between the lines of the
    segments before it and the lines of the segments after it. *)
Theorem wrap_text_blank_line
  (stringWidth : string -> string -> Z -> Q) (text : string) (width : Q)
  (font_name : string) (font_size : Z)
  (pre post : list string) (seg : string)
  (Hsplit : Py.split_nl text = pre ++ seg :: post)
  (Hblank : Py.strip seg = "") :
  wrap_text stringWidth text width font_name font_size
  = concat (map (segment_lines stringWidth width font_name font_size) pre)
    ++ [seg]
    ++ concat (map (segment_lines stringWidth width font_name font_size) post).
Proof.
  rewrite (wrap_text_at _ _ _ _ _ _ _ _ Hsplit).
  rewrite (lines_of_blank _ _ _ _ seg); [reflexivity|].
  rewrite <- strip_blank, Hblank. reflexivity.
Qed.

Lemma wrap_text_blank_line_witness :
  wrap_text unit_width ("one" +:+ nl +:+ nl +:+ "two") (inject_Z 10)
    "Helvetica" 12
  = concat (map (segment_lines unit_width (inject_Z 10) "Helvetica" 12)
              ["one"])
    ++ [""]
    ++ concat (map (segment_lines unit_width (inject_Z 10) "Helvetica" 12)
                 ["two"]).
Proof.
  apply (wrap_text_blank_line unit_width ("one" +:+ nl +:+ nl +:+ "two")
           (inject_Z 10) "Helvetica" 12 ["one"] ["two"] "");
    vm_compute; reflexivity.
Defined.

(** C9: a segment that is not blank and whose first token is wider than the
    usable width yields the empty candidate as a line, and right after it
    the line that starts with that token. *)
Theorem wrap_text_empty_before_overlong
  (stringWidth : string -> string -> Z -> Q) (text : string) (width : Q)
  (font_name : string) (font_size : Z)
  (pre post : list string) (seg w : string) (ws : list string)
  (Hsplit : Py.split_nl text = pre ++ seg :: post)
  (Hwords : Py.split seg = w :: ws)
  (too_wide : (width < stringWidth w font_name font_size)%Q) :
  exists tail rest,
    segment_lines stringWidth width font_name font_size seg
    = "" :: (w +:+ " " +:+ tail) :: rest
    /\ wrap_text stringWidth text width font_name font_size
       = concat (map (segment_lines stringWidth width font_name font_size) pre)
         ++ ("" :: (w +:+ " " +:+ tail) :: rest)
         ++ concat
              (map (segment_lines stringWidth width font_name font_size) post).
Proof.
  assert (Hb : blank seg = false).
  { destruct (blank seg) eqn:Hb; [|reflexivity].
    rewrite (blank_split seg Hb) in Hwords. discriminate. }
  destruct (run_head stringWidth width font_name font_size ws (w +:+ " "))
    as (tail & rest & Hrun).
  exists tail, rest.
  assert (Hlines : segment_lines stringWidth width font_name font_size seg
                   = "" :: (w +:+ " " +:+ tail) :: rest).
  { rewrite lines_of_words by assumption. rewrite Hwords. cbn [greedy].
    rewrite append_nil_l.
    destruct (Qle_bool _ width) eqn:Hfit.
    - apply Qle_bool_iff in Hfit. exfalso.
      apply (Qlt_irrefl width). eapply Qlt_le_trans; eassumption.
    - rewrite Hrun, append_assoc. reflexivity. }
  split; [exact Hlines|].
  now rewrite (wrap_text_at _ _ _ _ _ _ _ _ Hsplit), Hlines.
Qed.

Lemma wrap_text_empty_before_overlong_witness :
  exists tail rest,
    segment_lines unit_width (inject_Z 5) "Helvetica" 12 "transcription ok"
    = "" :: ("transcription" +:+ " " +:+ tail) :: rest
    /\ wrap_text unit_width "transcription ok" (inject_Z 5) "Helvetica" 12
       = concat (map (segment_lines unit_width (inject_Z 5) "Helvetica" 12) [])
         ++ ("" :: ("transcription" +:+ " " +:+ tail) :: rest)
         ++ concat
              (map (segment_lines unit_width (inject_Z 5) "Helvetica" 12) []).
Proof.
  apply (wrap_text_empty_before_overlong unit_width "transcription ok"
           (inject_Z 5) "Helvetica" 12 [] [] "transcription ok"
           "transcription" ["ok"]); vm_compute; reflexivity.
Defined.

(** ** The page flow loops *)

Section FlowFacts.

Variables page_width page_height : Z.
Variable margins : Margins.t.

Local Abbreviation letter := (page_width, page_height).
Local Abbreviation start := (page_height - Margins.top margins - 60).
Local Abbreviation limit := (Margins.bottom margins + 30).
Local Abbreviation x0 := (Margins.left margins).


Lemma body_line_eq (ep : option Z) (y : Z) (out : list call) (line : string) :
  body_line letter margins ep (y, out) line
  = if y <=? limit
    then (start - 14,
          out ++ [showPage] ++ add_page_header_footer letter ep margins
              ++ [drawString x0 start line])
    else (y - 14, out ++ [drawString x0 y line]).
Proof.
  unfold body_line. simpl.
  destruct (y <=? _); [|reflexivity].
  now rewrite <- !app_assoc.
Qed.

Lemma index_entry_eq (y : Z) (out : list call) (ep : option Z) (text : string) :
  index_entry letter margins (y, out) (ep, text)
  = if y <=? limit
    then (start - 14,
          out ++ [showPage] ++ add_page_header_footer letter ep margins
              ++ [drawString x0 start ("Episode " +:+ Py.str ep)])
    else (y - 14, out ++ [drawString x0 y ("Episode " +:+ Py.str ep)]).
Proof.
  unfold index_entry. simpl.
  destruct (y <=? _); [|reflexivity].
  now rewrite <- !app_assoc.
Qed.

Lemma fold_body_line (ep : option Z) (lines : list string) (y : Z)
  (out : list call) :
  snd (fold_left (body_line letter margins ep) lines (y, out))
  = out ++ body_calls page_width page_height margins ep y lines.
Proof.
  revert y out. induction lines as [|line rest IH]; intros y out.
  - simpl. now rewrite app_nil_r.
  - cbn [fold_left body_calls]. rewrite body_line_eq.
    destruct (y <=? limit); rewrite IH, <- !app_assoc; reflexivity.
Qed.

Lemma fold_index_entry (ts : list item) (y : Z) (out : list call) :
  snd (fold_left (index_entry letter margins) ts (y, out))
  = out ++ index_calls page_width page_height margins y ts.
Proof.
  revert y out. induction ts as [|[ep text] rest IH]; intros y out.
  - simpl. now rewrite app_nil_r.
  - cbn [fold_left index_calls]. rewrite index_entry_eq.
    destruct (y <=? limit); rewrite IH, <- !app_assoc; reflexivity.
Qed.

Lemma body_calls_fit (ep : option Z) (lines : list string) (y : Z) :
  limit < y - 14 * (Z.of_nat (length lines) - 1) ->
  body_calls page_width page_height margins ep y lines = draws_from margins y lines.
Proof.
  revert y. induction lines as [|line rest IH]; intros y Hy; [reflexivity|].
  cbn [body_calls draws_from]. cbn [length] in Hy.
  destruct (Z.leb_spec y limit) as [Hle|Hgt]; [lia|].
  f_equal. apply IH. lia.
Qed.

Lemma body_calls_app (ep : option Z) (fit rest : list string) (y : Z) :
  limit < y - 14 * (Z.of_nat (length fit) - 1) ->
  body_calls page_width page_height margins ep y (fit ++ rest)
  = draws_from margins y fit ++ body_calls page_width page_height margins ep (y - 14 * Z.of_nat (length fit)) rest.
Proof.
  revert y. induction fit as [|line fit IH]; intros y Hy.
  - simpl. f_equal. lia.
  - cbn [app body_calls draws_from]. cbn [length] in Hy.
    destruct (Z.leb_spec y limit) as [Hle|Hgt]; [lia|].
    rewrite IH by lia. cbn [app length]. do 3 f_equal. lia.
Qed.

Lemma body_calls_draws (ep : option Z) (lines : list string) (y : Z) :
  Forall (fun line => exists y', In (drawString x0 y' line)
                                   (body_calls page_width page_height margins ep y lines)) lines.
Proof.
  revert y. induction lines as [|line rest IH]; intros y; [constructor|].
  cbn [body_calls]. destruct (y <=? limit).
  - constructor.
    + exists start. simpl. auto.
    + eapply Forall_impl; [apply (IH (start - 14))|].
      intros l [y' Hy']. exists y'. simpl. auto.
  - constructor.
    + exists y. now left.
    + eapply Forall_impl; [apply (IH (y - 14))|].
      intros l [y' Hy']. exists y'. now right.
Qed.


Lemma header_no_log (ep : option Z) :
  forallb (fun c => negb (is_log_write c))
    (add_page_header_footer letter ep margins) = true.
Proof. reflexivity. Qed.

Lemma body_calls_no_log (ep : option Z) (lines : list string) (y : Z) :
  forallb (fun c => negb (is_log_write c)) (body_calls page_width page_height margins ep y lines) = true.
Proof.
  revert y. induction lines as [|line rest IH]; intros y; [reflexivity|].
  cbn [body_calls]. destruct (y <=? limit).
  - rewrite !forallb_app, header_no_log. simpl. apply IH.
  - simpl. apply IH.
Qed.

Lemma index_calls_no_log (ts : list item) (y : Z) :
  forallb (fun c => negb (is_log_write c)) (index_calls page_width page_height margins y ts) = true.
Proof.
  revert y. induction ts as [|[ep text] rest IH]; intros y; [reflexivity|].
  cbn [index_calls]. destruct (y <=? limit).
  - rewrite !forallb_app, header_no_log. simpl. apply IH.
  - simpl. apply IH.
Qed.

Lemma draws_from_no_page (lines : list string) (y : Z) :
  List.filter is_showPage (draws_from margins y lines) = [].
Proof.
  revert y. induction lines as [|line rest IH]; intros y; [reflexivity|].
  simpl. apply IH.
Qed.

Lemma index_calls_app (before after : list item) (y : Z) :
  exists y', index_calls page_width page_height margins y (before ++ after)
             = index_calls page_width page_height margins y before ++ index_calls page_width page_height margins y' after.
Proof.
  revert y. induction before as [|[ep text] before IH]; intros y.
  - now exists y.
  - cbn [app index_calls]. destruct (y <=? limit).
    + destruct (IH (start - 14)) as [y' ->]. exists y'. reflexivity.
    + destruct (IH (y - 14)) as [y' ->]. now exists y'.
Qed.

End FlowFacts.

(** ** [create_pdf] in closed form *)

Section PdfFacts.

Variable stringWidth : string -> string -> Z -> Q.
Variables page_width page_height : Z.
Variable margins : Margins.t.
Variable log_file_path : string.

Local Abbreviation letter := (page_width, page_height).
Local Abbreviation start := (page_height - Margins.top margins - 60).
Local Abbreviation x0 := (Margins.left margins).
Local Abbreviation item_calls :=
  (item_calls stringWidth page_width page_height margins log_file_path).


Lemma episode_eq (processed : gset string) (out : list call) (it : item) :
  episode stringWidth letter processed margins log_file_path out it
  = out ++ item_calls processed it.
Proof.
  destruct it as [ep text]. unfold episode, item_calls, item_draws. simpl.
  destruct (bool_decide _); [now rewrite app_nil_r|].
  match goal with
  | |- context [fold_left ?f ?l (?y, ?o)] =>
      destruct (fold_left f l (y, o)) as [y' out'] eqn:E
  end.
  apply (f_equal snd) in E.
  rewrite (fold_body_line page_width page_height margins) in E.
  simpl in E. subst out'. unfold wrapped_body, update_log_file.
  rewrite <- !app_assoc. simpl. reflexivity.
Qed.

Lemma fold_episode (processed : gset string) (ts : list item)
  (out : list call) :
  fold_left (episode stringWidth letter processed margins log_file_path)
    ts out
  = out ++ concat (map (item_calls processed) ts).
Proof.
  revert out. induction ts as [|it ts IH]; intros out;
    cbn [fold_left map concat].
  - now rewrite app_nil_r.
  - now rewrite IH, episode_eq, <- app_assoc.
Qed.

Lemma create_pdf_eq (w : world) (ts : list item) (output_filename : string)
  (processed : gset string) :
  get_processed_episodes w log_file_path = Ok processed ->
  create_pdf stringWidth letter w ts output_filename margins log_file_path
  = Ok ([Canvas output_filename; setFont "Helvetica-Bold" 14;
         drawString x0 start "Index of Episodes"; setFont "Helvetica" 12]
        ++ index_calls page_width page_height margins (start - 16) ts
        ++ [showPage]
        ++ concat (map (item_calls processed) ts)
        ++ [save]).
Proof.
  intros Hp. unfold create_pdf. rewrite Hp. simpl.
  match goal with
  | |- context [fold_left ?f ?l (?y, ?o)] =>
      destruct (fold_left f l (y, o)) as [y' out'] eqn:E
  end.
  apply (f_equal snd) in E.
  rewrite (fold_index_entry page_width page_height margins) in E.
  simpl in E. subst out'. rewrite fold_episode.
  rewrite <- !app_assoc. reflexivity.
Qed.

End PdfFacts.

(** ** Claims on the page flow *)

(** C8: in both drawing loops, for the line emitted after any lines drawn
    before it, a page is started exactly when the cursor is at or below
    bottom margin + 30; the line is then drawn at page height - top margin
    - 60, otherwise at the cursor; and the cursor ends 14 below the place
    where the line was drawn, so it only goes down within a page. *)
Theorem page_flow_step (letter : Z * Z) (m : Margins.t)
  (episode_number : option Z) (before : list string) (line : string)
  (items : list item) (it : item) (y0 : Z) (out0 : list call) :
  let start := snd letter - Margins.top m - 60 in
  let limit := Margins.bottom m + 30 in
  (let st := fold_left (body_line letter m episode_number) before (y0, out0) in
   let st' := fold_left (body_line letter m episode_number)
                (before ++ [line]) (y0, out0) in
   let drawn_at := if fst st <=? limit then start else fst st in
   exists new,
     snd st' = snd st ++ new
     /\ (In showPage new <-> fst st <= limit)
     /\ new = (if fst st <=? limit
               then showPage :: add_page_header_footer letter episode_number m
               else [])
              ++ [drawString (Margins.left m) drawn_at line]
     /\ fst st' = drawn_at - 14 /\ fst st' < drawn_at)
  /\
  (let st := fold_left (index_entry letter m) items (y0, out0) in
   let st' := fold_left (index_entry letter m) (items ++ [it]) (y0, out0) in
   let drawn_at := if fst st <=? limit then start else fst st in
   exists new,
     snd st' = snd st ++ new
     /\ (In showPage new <-> fst st <= limit)
     /\ new = (if fst st <=? limit
               then showPage :: add_page_header_footer letter (fst it) m
               else [])
              ++ [drawString (Margins.left m) drawn_at
                    ("Episode " +:+ Py.str (fst it))]
     /\ fst st' = drawn_at - 14 /\ fst st' < drawn_at).
Proof.
  destruct letter as [pw ph]. cbn [snd]. split.
  - rewrite fold_left_app.
    destruct (fold_left _ before _) as [y out]. cbn [fold_left fst snd].
    rewrite (body_line_eq pw ph m).
    destruct (Z.leb_spec y (Margins.bottom m + 30)) as [Hle|Hgt];
      cbn [fst snd]; eexists; (split; [reflexivity|]).
    + split; [split; intros H; [lia | now left]|].
      split; [reflexivity | split; lia].
    + split; [split; intros H; [destruct H as [H|[]]; discriminate | lia]|].
      split; [reflexivity | split; lia].
  - rewrite fold_left_app.
    destruct (fold_left _ items _) as [y out]. destruct it as [ep text].
    cbn [fold_left fst snd]. rewrite (index_entry_eq pw ph m).
    destruct (Z.leb_spec y (Margins.bottom m + 30)) as [Hle|Hgt];
      cbn [fst snd]; eexists; (split; [reflexivity|]).
    + split; [split; intros H; [lia | now left]|].
      split; [reflexivity | split; lia].
    + split; [split; intros H; [destruct H as [H|[]]; discriminate | lia]|].
      split; [reflexivity | split; lia].
Qed.

(** [first_page_lines] counts what it says: that many cursor positions are
    above the limit, the next one is not. *)
Lemma first_page_lines_spec (letter : Z * Z) (m : Margins.t) :
  let y0 := snd letter - Margins.top m - 60 - 14 in
  let limit := Margins.bottom m + 30 in
  let k := Z.of_nat (first_page_lines letter m) in
  (forall i, 0 <= i < k -> limit < y0 - 14 * i) /\ y0 - 14 * k <= limit.
Proof.
  cbv zeta. unfold first_page_lines.
  set (y0 := snd letter - Margins.top m - 60 - 14).
  set (limit := Margins.bottom m + 30).
  pose proof (Z.div_mod (y0 - limit + 13) 14 ltac:(lia)) as Hdm.
  pose proof (Z.mod_pos_bound (y0 - limit + 13) 14 ltac:(lia)) as Hmod.
  set (q := (y0 - limit + 13) / 14) in *.
  set (r := (y0 - limit + 13) mod 14) in *.
  clearbody q r. split; [intros i Hi|]; lia.
Qed.

Lemma body_calls_first_page (pw ph : Z) (m : Margins.t) (ep : option Z)
  (lines : list string) :
  (length lines <= first_page_lines (pw, ph) m)%nat ->
  body_calls pw ph m ep (ph - Margins.top m - 60 - 14) lines
  = draws_from m (ph - Margins.top m - 60 - 14) lines.
Proof.
  intros Hlen. destruct lines as [|l0 lines]; [reflexivity|].
  apply body_calls_fit.
  destruct (first_page_lines_spec (pw, ph) m) as [Hfit _].
  cbn [snd] in Hfit. apply Hfit. cbn [length] in *. lia.
Qed.

Lemma body_calls_one_overflow (pw ph : Z) (m : Margins.t) (ep : option Z)
  (lines : list string) :
  length lines = S (first_page_lines (pw, ph) m) ->
  exists fit last,
    lines = fit ++ [last]
    /\ body_calls pw ph m ep (ph - Margins.top m - 60 - 14) lines
       = draws_from m (ph - Margins.top m - 60 - 14) fit
         ++ [showPage] ++ add_page_header_footer (pw, ph) ep m
         ++ [drawString (Margins.left m) (ph - Margins.top m - 60) last].
Proof.
  intros Hlen.
  destruct (exists_last (l := lines)) as (fit & last & Hw).
  { intros E. rewrite E in Hlen. discriminate. }
  exists fit, last. split; [exact Hw|].
  rewrite Hw in Hlen |- *. rewrite length_app in Hlen. cbn [length] in Hlen.
  assert (Hk : length fit = first_page_lines (pw, ph) m) by lia.
  destruct (first_page_lines_spec (pw, ph) m) as [Hfit Hover].
  cbn [snd] in Hfit, Hover. rewrite <- Hk in Hfit, Hover.
  destruct fit as [|l0 fit'].
  - cbn [app body_calls draws_from length] in *.
    destruct (Z.leb_spec (ph - Margins.top m - 60 - 14)
                (Margins.bottom m + 30)); [reflexivity | lia].
  - rewrite body_calls_app.
    + cbn [body_calls].
      destruct (Z.leb_spec
                  (ph - Margins.top m - 60 - 14
                   - 14 * Z.of_nat (length (l0 :: fit')))
                  (Margins.bottom m + 30)); [reflexivity | lia].
    + apply Hfit. cbn [length]. lia.
Qed.

(** C7: for an item that [create_pdf] does not skip and whose wrapped body
    has exactly one line more than go on the first page, one round of the
    transcript loop draws header, footer and title, then the lines that fit
    one under the other from 14 below the title, starts exactly one new
    page, redraws header and footer, draws the last line at page height -
    top margin - 60, and only then writes the log and ends the page. *)
Theorem body_one_overflow
  (stringWidth : string -> string -> Z -> Q) (letter : Z * Z)
  (processed : gset string) (m : Margins.t) (log : string)
  (out : list call) (episode_number : option Z) (text : string) :
  let start := snd letter - Margins.top m - 60 in
  let wrapped_text :=
    wrap_text stringWidth text
      (inject_Z (fst letter - Margins.left m - Margins.right m))
      "Helvetica" 12 in
  Py.str episode_number ∉ processed ->
  length wrapped_text = S (first_page_lines letter m) ->
  exists fit last body,
    wrapped_text = fit ++ [last]
    /\ episode stringWidth letter processed m log out (episode_number, text)
       = out
         ++ add_page_header_footer letter episode_number m
         ++ [setFont "Helvetica-Bold" 14;
             drawString (Margins.left m) start
               ("Episode " +:+ Py.str episode_number);
             setFont "Helvetica" 12]
         ++ body
         ++ [log_write log (Py.str episode_number +:+ nl); showPage]
    /\ body = draws_from m (start - 14) fit
              ++ [showPage] ++ add_page_header_footer letter episode_number m
              ++ [drawString (Margins.left m) start last]
    /\ length (List.filter is_showPage body) = 1%nat.
Proof.
  destruct letter as [pw ph]. cbn [fst snd]. cbv zeta. intros Hnot Hlen.
  destruct (body_calls_one_overflow pw ph m episode_number _ Hlen)
    as (fit & last & Hw & Hcalls).
  exists fit, last.
  exists (draws_from m (ph - Margins.top m - 60 - 14) fit
          ++ [showPage] ++ add_page_header_footer (pw, ph) episode_number m
          ++ [drawString (Margins.left m) (ph - Margins.top m - 60) last]).
  split; [exact Hw|]. split; [|split].
  - rewrite (episode_eq stringWidth pw ph m log). unfold item_calls.
    cbn [fst snd]. rewrite bool_decide_eq_false_2 by assumption.
    unfold item_draws, wrapped_body. cbn [fst snd]. rewrite Hcalls.
    rewrite <- !app_assoc. reflexivity.
  - reflexivity.
  - rewrite !List.filter_app, draws_from_no_page. reflexivity.
Qed.

Lemma body_one_overflow_witness :
  exists fit last body,
    wrap_text unit_width body_43
      (inject_Z (fst letter - Margins.left margins - Margins.right margins))
      "Helvetica" 12 = fit ++ [last]
    /\ episode unit_width letter ∅ margins log_file_path [] (Some 7, body_43)
       = []
         ++ add_page_header_footer letter (Some 7) margins
         ++ [setFont "Helvetica-Bold" 14;
             drawString (Margins.left margins)
               (snd letter - Margins.top margins - 60)
               ("Episode " +:+ Py.str (Some 7));
             setFont "Helvetica" 12]
         ++ body
         ++ [log_write log_file_path (Py.str (Some 7) +:+ nl); showPage]
    /\ body = draws_from margins (snd letter - Margins.top margins - 60 - 14)
                fit
              ++ [showPage] ++ add_page_header_footer letter (Some 7) margins
              ++ [drawString (Margins.left margins)
                    (snd letter - Margins.top margins - 60) last]
    /\ length (List.filter is_showPage body) = 1%nat.
Proof.
  apply (body_one_overflow unit_width letter ∅ margins log_file_path []
           (Some 7) body_43).
  - apply not_elem_of_empty.
  - vm_compute. reflexivity.
Defined.

(** ** Claims on the log of processed episodes *)

(** C10: when nothing exists at the path of the log, the set of processed
    episodes is returned, and it is empty; nothing is raised. *)
Theorem get_processed_episodes_missing (w : world) (path : string) :
  files w !! path = None ->
  get_processed_episodes w path = Ok ∅.
Proof. intros H. unfold get_processed_episodes. now rewrite H. Qed.

Lemma get_processed_episodes_missing_witness :
  get_processed_episodes
    {| listdir := ["1.txt"]; files := {["1.txt" := File "hello"]} |}
    "processed_episodes.log" = Ok ∅.
Proof.
  apply (get_processed_episodes_missing
           {| listdir := ["1.txt"]; files := {["1.txt" := File "hello"]} |}
           "processed_episodes.log").
  vm_compute. reflexivity.
Defined.

(** [str] is injective: two identifiers are written alike only when they
    are equal. *)
Lemma to_int_normal (z : Z) : Z.to_int z = Decimal.norm (Z.to_int z).
Proof. now rewrite <- DecimalZ.to_of, DecimalZ.of_to. Qed.

Lemma to_int_parses (z : Z) :
  NilZero.int_of_string (Py.str_int z) = Some (Z.to_int z).
Proof.
  unfold Py.str_int. apply NilZero.isi.
  - rewrite to_int_normal. destruct (Z.to_int z) as [d|d]; simpl.
    + intros [= H]. now apply DecimalFacts.unorm_nonnil in H.
    + destruct (Decimal.nzhead d); discriminate.
  - rewrite to_int_normal. destruct (Z.to_int z) as [d|d]; simpl.
    + discriminate.
    + destruct (Decimal.nzhead d); discriminate.
Qed.

Lemma str_inj (a b : option Z) : Py.str a = Py.str b -> a = b.
Proof.
  destruct a as [a|], b as [b|]; simpl; intros H.
  - f_equal. apply DecimalZ.to_int_inj.
    apply (f_equal NilZero.int_of_string) in H.
    rewrite !to_int_parses in H. congruence.
  - apply (f_equal NilZero.int_of_string) in H.
    rewrite to_int_parses in H. discriminate.
  - apply (f_equal NilZero.int_of_string) in H.
    rewrite to_int_parses in H. discriminate.
  - reflexivity.
Qed.

Lemma append_inj_l (a b c : string) : a +:+ c = b +:+ c -> a = b.
Proof.
  revert b. induction a as [|x a IH]; intros [|y b] H.
  - reflexivity.
  - apply (f_equal String.length) in H.
    rewrite append_nil_l, append_cons in H. simpl in H.
    rewrite length_append in H. lia.
  - apply (f_equal String.length) in H.
    rewrite append_nil_l, append_cons in H. simpl in H.
    rewrite length_append in H. lia.
  - rewrite !append_cons in H. injection H as -> H. f_equal. now apply IH.
Qed.

Lemma no_log_not_in (l : list call) (c : call) :
  forallb (fun c => negb (is_log_write c)) l = true ->
  is_log_write c = true -> ~ In c l.
Proof.
  intros Hall Hc Hin. rewrite forallb_forall in Hall.
  specialize (Hall c Hin). now rewrite Hc in Hall.
Qed.

Lemma prefix_reaches (A R p q : list call) (c : call) :
  A ++ c :: R = p ++ q -> ~ In c A -> In c p ->
  exists p2, p = A ++ c :: p2.
Proof.
  revert p. induction A as [|a A IH]; intros p Heq Hnot Hin.
  - destruct p as [|c' p]; [contradiction|].
    injection Heq as <- _. now exists p.
  - destruct p as [|a' p]; [contradiction|].
    injection Heq as <- Heq.
    destruct Hin as [->|Hin]; [exfalso; apply Hnot; now left|].
    destruct (IH p Heq) as [p2 ->]; [intros H; apply Hnot; now right
                                    | assumption |].
    now exists p2.
Qed.

Section LedgerFacts.

Variable stringWidth : string -> string -> Z -> Q.
Variables page_width page_height : Z.
Variable m : Margins.t.
Variable log : string.

Let draws := item_draws stringWidth page_width page_height m.
Let calls_of := item_calls stringWidth page_width page_height m log.

Lemma item_draws_no_log (it : item) :
  forallb (fun c => negb (is_log_write c)) (draws it) = true.
Proof.
  unfold draws, item_draws. rewrite !forallb_app.
  rewrite body_calls_no_log. reflexivity.
Qed.

Lemma item_calls_write (processed : gset string) (it : item)
  (ep : option Z) :
  In (log_write log (Py.str ep +:+ nl)) (calls_of processed it) ->
  fst it = ep.
Proof.
  unfold calls_of, item_calls. destruct (bool_decide _); [contradiction|].
  intros Hin. apply in_app_or in Hin as [Hin|Hin].
  - exfalso. revert Hin. apply no_log_not_in; [|reflexivity].
    apply item_draws_no_log.
  - destruct Hin as [Heq|[Heq|[]]]; [|discriminate].
    injection Heq as Heq. symmetry.
    now apply str_inj, (append_inj_l _ _ nl).
Qed.

Lemma bodies_no_write (processed : gset string) (its : list item)
  (ep : option Z) :
  ~ In ep (map fst its) ->
  ~ In (log_write log (Py.str ep +:+ nl))
      (concat (map (calls_of processed) its)).
Proof.
  intros Hnot Hin. apply in_concat in Hin as (cs & Hcs & Hin).
  apply in_map_iff in Hcs as (it & <- & Hit).
  apply item_calls_write in Hin. apply Hnot. rewrite <- Hin.
  now apply in_map.
Qed.

Lemma item_draws_body (it : item) :
  Forall (fun line => exists y, In (drawString (Margins.left m) y line)
                                  (draws it))
    (wrapped_body stringWidth page_width m (snd it)).
Proof.
  eapply Forall_impl;
    [apply (body_calls_draws page_width page_height m (fst it))|].
  intros line [y Hy]. exists y. unfold draws, item_draws.
  apply in_or_app. right. apply in_or_app. right. exact Hy.
Qed.

End LedgerFacts.

(** C3, as stated, fails when two items carry the same identifier, which a
    run of the script can produce: [1.txt] and [01.txt] both give 1. At the
    crash point right after the log write of the first item, the
    identifier 1 is in the log and the body line of the second item, which
    the run goes on to draw, has not been drawn. *)
Lemma ledger_after_draws_fails :
  transcripts world_takes = Ok [(Some 1, "first"); (Some 1, "second")]
  /\ main unit_width world_takes = Ok calls_takes
  /\ calls_takes = firstn 14 calls_takes ++ skipn 14 calls_takes
  /\ In (log_write log_file_path (Py.str (Some 1) +:+ nl))
       (firstn 14 calls_takes)
  /\ In "second " (wrapped_body unit_width (fst letter) margins "second")
  /\ (exists y, In (drawString (Margins.left margins) y "second ")
                  calls_takes)
  /\ forall y, ~ In (drawString (Margins.left margins) y "second ")
                 (firstn 14 calls_takes).
Proof.
  split; [vm_compute; reflexivity|]. split; [vm_compute; reflexivity|].
  split; [symmetry; apply firstn_skipn|].
  split; [vm_compute; auto 20|]. split; [vm_compute; auto|].
  split; [exists 668; vm_compute; auto 30|].
  intros y H. vm_compute in H.
  repeat (destruct H as [H|H]; [discriminate H|]). exact H.
Qed.

(** C3, amended: in a run over items with distinct identifiers, every
    prefix of the calls made (a crash point) that holds the log write of an
    item's identifier holds, before that write and in order, everything the
    item draws: header and footer, title, and every line of its wrapped
    body. *)
Theorem ledger_after_draws
  (stringWidth : string -> string -> Z -> Q) (letter : Z * Z) (w : world)
  (ts : list item) (output_filename : string) (m : Margins.t)
  (log : string) (calls : list call)
  (before after : list item) (episode_number : option Z) (text : string)
  (p q : list call)
  (Hrun : create_pdf stringWidth letter w ts output_filename m log
          = Ok calls)
  (Huniq : List.NoDup (map fst ts))
  (Hts : ts = before ++ (episode_number, text) :: after)
  (Hcrash : calls = p ++ q)
  (Hlog : In (log_write log (Py.str episode_number +:+ nl)) p) :
  exists p1 p2,
    p = p1
        ++ item_draws stringWidth (fst letter) (snd letter) m
             (episode_number, text)
        ++ log_write log (Py.str episode_number +:+ nl) :: p2
    /\ Forall (fun line =>
         exists y, In (drawString (Margins.left m) y line)
                     (item_draws stringWidth (fst letter) (snd letter) m
                        (episode_number, text)))
       (wrapped_body stringWidth (fst letter) m text).
Proof.
  destruct letter as [pw ph]. cbn [fst snd].
  destruct (get_processed_episodes w log) as [processed|e] eqn:Hp;
    [|unfold create_pdf in Hrun; rewrite Hp in Hrun; discriminate].
  rewrite (create_pdf_eq _ _ _ _ _ _ _ _ processed Hp) in Hrun.
  subst ts. rewrite map_app in Huniq. cbn [map fst] in Huniq.
  pose proof (List.NoDup_remove_2 _ _ _ Huniq) as Hfresh.
  assert (Hb : ~ In episode_number (map fst before))
    by (intros H; apply Hfresh, in_or_app; now left).
  assert (Ha : ~ In episode_number (map fst after))
    by (intros H; apply Hfresh, in_or_app; now right).
  set (lw := log_write log (Py.str episode_number +:+ nl)) in *.
  set (P := [Canvas output_filename; setFont "Helvetica-Bold" 14;
             drawString (Margins.left m) (ph - Margins.top m - 60)
               "Index of Episodes"; setFont "Helvetica" 12]
            ++ index_calls pw ph m (ph - Margins.top m - 60 - 16)
                 (before ++ (episode_number, text) :: after)
            ++ [showPage]
            ++ concat (map (item_calls stringWidth pw ph m log processed)
                         before)).
  set (R := concat (map (item_calls stringWidth pw ph m log processed) after)
            ++ [save]).
  assert (HP : ~ In lw P).
  { unfold P. intros Hin.
    apply in_app_or in Hin as [Hin|Hin];
      [simpl in Hin; intuition discriminate|].
    apply in_app_or in Hin as [Hin|Hin].
    { revert Hin. apply no_log_not_in; [|reflexivity].
      apply index_calls_no_log. }
    apply in_app_or in Hin as [Hin|Hin];
      [simpl in Hin; intuition discriminate|].
    revert Hin. now apply bodies_no_write. }
  assert (HR : ~ In lw R).
  { unfold R. intros Hin. apply in_app_or in Hin as [Hin|Hin].
    - revert Hin. now apply bodies_no_write.
    - simpl in Hin. intuition discriminate. }
  assert (Hcalls :
    calls = P ++ item_calls stringWidth pw ph m log processed
                   (episode_number, text) ++ R).
  { enough (H : Ok calls
                = Ok (P ++ item_calls stringWidth pw ph m log processed
                             (episode_number, text) ++ R))
      by (now injection H).
    rewrite <- Hrun. unfold P, R.
    rewrite map_app, concat_app. cbn [map concat].
    rewrite <- !app_assoc. reflexivity. }
  unfold item_calls in Hcalls. cbn [fst] in Hcalls.
  destruct (bool_decide (Py.str episode_number ∈ processed)).
  - exfalso.
    assert (Hin : In lw calls)
      by (rewrite Hcrash; apply in_or_app; now left).
    rewrite Hcalls in Hin. apply in_app_or in Hin as [Hin|Hin]; auto.
  - fold lw in Hcalls. rewrite Hcrash in Hcalls.
    rewrite <- app_assoc, app_assoc in Hcalls. cbn [app] in Hcalls.
    symmetry in Hcalls. apply prefix_reaches in Hcalls as [p2 ->].
    + exists P, p2. split; [now rewrite <- app_assoc|].
      apply (item_draws_body stringWidth pw ph m (episode_number, text)).
    + intros Hin. apply in_app_or in Hin as [Hin|Hin]; [auto|].
      revert Hin. apply no_log_not_in; [|reflexivity].
      apply item_draws_no_log.
    + exact Hlog.
Qed.


Lemma ledger_after_draws_witness :
  exists p1 p2,
    firstn 14 calls_fresh
    = p1
      ++ item_draws unit_width (fst letter) (snd letter) margins
           (Some 1, "hello world")
      ++ log_write log_file_path (Py.str (Some 1) +:+ nl) :: p2
    /\ Forall (fun line =>
         exists y, In (drawString (Margins.left margins) y line)
                     (item_draws unit_width (fst letter) (snd letter)
                        margins (Some 1, "hello world")))
       (wrapped_body unit_width (fst letter) margins "hello world").
Proof.
  apply (ledger_after_draws unit_width letter world_fresh two_items
           output_pdf margins log_file_path calls_fresh
           [] [(Some 2, "bye")] (Some 1) "hello world"
           (firstn 14 calls_fresh) (skipn 14 calls_fresh)).
  - vm_compute. reflexivity.
  - repeat constructor; simpl; intuition discriminate.
  - reflexivity.
  - symmetry. apply firstn_skipn.
  - vm_compute. auto 20.
Defined.

(** ** Claims on items that are already in the log *)


(** C2, as stated, fails for a run of the script: an episode whose
    identifier is in the log is left out of [transcripts] before
    [create_pdf] is called, so the index has no line for it. *)
Lemma processed_item_not_indexed :
  In "1.txt" (listdir world_seen)
  /\ Py.endswith "1.txt" ".txt" = true
  /\ extract_episode_number "1.txt" = Some 1
  /\ (exists processed,
        get_processed_episodes world_seen log_file_path = Ok processed
        /\ Py.str (Some 1) ∈ processed)
  /\ exists calls,
       main unit_width world_seen = Ok calls
       /\ forall x y, ~ In (drawString x y "Episode 1") calls.
Proof.
  split; [now left|]. split; [reflexivity|]. split; [reflexivity|]. split.
  - exists (list_to_set ["1"]). split; [reflexivity|].
    change (Py.str (Some 1)) with "1". set_solver.
  - exists [Canvas "transcripts.pdf"; setFont "Helvetica-Bold" 14;
            drawString 50 682 "Index of Episodes"; setFont "Helvetica" 12;
            showPage; save].
    split; [vm_compute; reflexivity|].
    intros x y H. simpl in H. intuition discriminate.
Qed.

(** C2, amended: in every call of [create_pdf] whose list of transcripts
    holds an item with an identifier that is in the log when the call
    starts, the index loop draws one line "Episode" plus the identifier for
    it (after a page break with header and footer when the cursor is at the
    bottom), and the transcript loop adds nothing for it: no header, no
    title, no body line; the calls after the index are those of the other
    items. *)
Theorem processed_item_index_only
  (stringWidth : string -> string -> Z -> Q) (letter : Z * Z) (w : world)
  (ts : list item) (output_filename : string) (m : Margins.t)
  (log : string) (processed : gset string)
  (before after : list item) (episode_number : option Z) (text : string)
  (Hp : get_processed_episodes w log = Ok processed)
  (Hin : Py.str episode_number ∈ processed)
  (Hts : ts = before ++ (episode_number, text) :: after) :
  let start := snd letter - Margins.top m - 60 in
  exists brk y y',
    create_pdf stringWidth letter w ts output_filename m log
    = Ok ([Canvas output_filename; setFont "Helvetica-Bold" 14;
           drawString (Margins.left m) start "Index of Episodes";
           setFont "Helvetica" 12]
          ++ index_calls (fst letter) (snd letter) m (start - 16) before
          ++ brk
          ++ drawString (Margins.left m) y
               ("Episode " +:+ Py.str episode_number)
             :: index_calls (fst letter) (snd letter) m y' after
          ++ [showPage]
          ++ concat (map (item_calls stringWidth (fst letter) (snd letter)
                            m log processed) (before ++ after))
          ++ [save])
    /\ (brk = [] \/
        brk = showPage :: add_page_header_footer letter episode_number m).
Proof.
  destruct letter as [pw ph]. cbn [fst snd]. cbv zeta.
  rewrite (create_pdf_eq _ _ _ _ _ _ _ _ processed Hp). subst ts.
  assert (Hbodies :
    concat (map (item_calls stringWidth pw ph m log processed)
              (before ++ (episode_number, text) :: after))
    = concat (map (item_calls stringWidth pw ph m log processed)
                (before ++ after))).
  { rewrite !map_app, !concat_app. cbn [map concat].
    unfold item_calls at 2. cbn [fst].
    now rewrite bool_decide_eq_true_2 by assumption. }
  rewrite Hbodies.
  destruct (index_calls_app pw ph m before ((episode_number, text) :: after)
              (ph - Margins.top m - 60 - 16)) as [y1 ->].
  cbn [index_calls].
  destruct (y1 <=? Margins.bottom m + 30).
  - exists (showPage :: add_page_header_footer (pw, ph) episode_number m),
      (ph - Margins.top m - 60), (ph - Margins.top m - 60 - 14).
    split; [|now right]. rewrite <- !app_assoc. reflexivity.
  - exists [], y1, (y1 - 14).
    split; [|now left]. rewrite <- !app_assoc. reflexivity.
Qed.

Lemma processed_item_index_only_witness :
  exists brk y y',
    create_pdf unit_width letter world_seen
      [(Some 1, "Hello world."); (Some 2, "Second.")] output_pdf margins
      log_file_path
    = Ok ([Canvas output_pdf; setFont "Helvetica-Bold" 14;
           drawString (Margins.left margins)
             (snd letter - Margins.top margins - 60) "Index of Episodes";
           setFont "Helvetica" 12]
          ++ index_calls (fst letter) (snd letter) margins
               (snd letter - Margins.top margins - 60 - 16) []
          ++ brk
          ++ drawString (Margins.left margins) y
               ("Episode " +:+ Py.str (Some 1))
             :: index_calls (fst letter) (snd letter) margins y' [(Some 2, "Second.")]
          ++ [showPage]
          ++ concat (map (item_calls unit_width (fst letter) (snd letter)
                            margins log_file_path (list_to_set ["1"]))
                       ([] ++ [(Some 2, "Second.")]))
          ++ [save])
    /\ (brk = [] \/
        brk = showPage :: add_page_header_footer letter (Some 1) margins).
Proof.
  apply (processed_item_index_only unit_width letter world_seen
           [(Some 1, "Hello world."); (Some 2, "Second.")] output_pdf
           margins log_file_path (list_to_set ["1"])
           [] [(Some 2, "Second.")] (Some 1) "Hello world.").
  - reflexivity.
  - change (Py.str (Some 1)) with "1". set_solver.
  - reflexivity.
Defined.

(** * Further properties *)

(** ** [extract_episode_number] *)

Lemma int_digits_stop (acc : Z) (s : string) :
  no_leading_digit s = true -> int_digits acc s = acc.
Proof.
  destruct s as [|c s]; [reflexivity|]. simpl.
  now destruct (Py.isdigit c).
Qed.

Lemma int_digits_nonneg (s : string) (acc : Z) :
  0 <= acc -> 0 <= int_digits acc s.
Proof.
  revert acc. induction s as [|c s IH]; intros acc Hacc; [assumption|].
  simpl. destruct (Py.isdigit c) eqn:Hc; [|assumption].
  apply IH. unfold Py.isdigit in Hc.
  apply andb_true_iff in Hc as [H1 H2].
  apply N.leb_le in H1. lia.
Qed.

(** X1: the identifier taken from a file name is never negative. *)
Theorem extract_episode_number_nonneg (filename : string) (n : Z) :
  extract_episode_number filename = Some n -> 0 <= n.
Proof.
  induction filename as [|c s IH]; [discriminate|].
  cbn [extract_episode_number]. destruct (Py.isdigit c); [|exact IH].
  intros [= Hn]. rewrite <- Hn.
  now apply (int_digits_nonneg (String c s) 0).
Qed.

Lemma extract_episode_number_nonneg_witness : 0 <= 12.
Proof.
  apply (extract_episode_number_nonneg "episode12-part3.txt" 12).
  vm_compute. reflexivity.
Defined.

(** X2: a file name has no identifier exactly when it has no decimal digit. *)
Theorem extract_episode_number_none (filename : string) :
  extract_episode_number filename = None
  <-> all_chars (fun c => negb (Py.isdigit c)) filename = true.
Proof.
  induction filename as [|c s IH]; [easy|].
  cbn [extract_episode_number all_chars].
  destruct (Py.isdigit c); simpl; [easy | exact IH].
Qed.

Lemma extract_skip (pre s : string) :
  all_chars (fun c => negb (Py.isdigit c)) pre = true ->
  extract_episode_number (pre +:+ s) = extract_episode_number s.
Proof.
  induction pre as [|c pre IH]; intros H; [reflexivity|].
  rewrite append_cons. cbn [extract_episode_number all_chars] in *.
  apply andb_true_iff in H as [Hc Hpre].
  destruct (Py.isdigit c); [discriminate | now apply IH].
Qed.

Lemma int_digits_uint_acc (d : Decimal.uint) (p : positive) (rest : string) :
  int_digits (Z.pos p) (NilEmpty.string_of_uint d +:+ rest)
  = int_digits (Z.pos (Pos.of_uint_acc d p)) rest.
Proof.
  revert p. induction d; intros p; [reflexivity|..];
    cbn [NilEmpty.string_of_uint]; rewrite append_cons;
    cbn [int_digits Pos.of_uint_acc]; simpl Py.isdigit; cbv iota;
    rewrite <- IHd; f_equal; simpl; lia.
Qed.

Lemma int_digits_uint (d : Decimal.uint) (rest : string) :
  int_digits 0 (NilEmpty.string_of_uint d +:+ rest)
  = int_digits (Z.of_N (Pos.of_uint d)) rest.
Proof.
  induction d; [reflexivity|..];
    cbn [NilEmpty.string_of_uint]; rewrite append_cons;
    cbn [int_digits Pos.of_uint]; simpl Py.isdigit; cbv iota.
  - exact IHd.
  - apply (int_digits_uint_acc d 1).
  - apply (int_digits_uint_acc d 2).
  - apply (int_digits_uint_acc d 3).
  - apply (int_digits_uint_acc d 4).
  - apply (int_digits_uint_acc d 5).
  - apply (int_digits_uint_acc d 6).
  - apply (int_digits_uint_acc d 7).
  - apply (int_digits_uint_acc d 8).
  - apply (int_digits_uint_acc d 9).
Qed.

Lemma string_of_uint_digit (d : Decimal.uint) :
  d <> Decimal.Nil ->
  exists c s, NilEmpty.string_of_uint d = String c s /\ Py.isdigit c = true.
Proof.
  destruct d; [congruence|..]; intros _; eexists; eexists;
    (split; [reflexivity | reflexivity]).
Qed.

Lemma extract_uint (d : Decimal.uint) (rest : string) :
  d <> Decimal.Nil -> no_leading_digit rest = true ->
  extract_episode_number (NilEmpty.string_of_uint d +:+ rest)
  = Some (Z.of_N (Pos.of_uint d)).
Proof.
  intros Hd Hrest. rewrite <- (int_digits_stop _ rest Hrest).
  rewrite <- int_digits_uint.
  destruct (string_of_uint_digit d Hd) as (c & s & -> & Hc).
  rewrite append_cons. cbn [extract_episode_number]. now rewrite Hc.
Qed.

(** X3: the identifier of a file name is the first number written in it: after
    any text without digits, the decimal writing of [n >= 0], followed by
    something that does not go on with a digit, is read back as [n]. *)
Theorem extract_episode_number_str (pre rest : string) (n : Z) :
  0 <= n ->
  all_chars (fun c => negb (Py.isdigit c)) pre = true ->
  no_leading_digit rest = true ->
  extract_episode_number (pre +:+ Py.str_int n +:+ rest) = Some n.
Proof.
  intros Hn Hpre Hrest. rewrite extract_skip by assumption.
  unfold Py.str_int. destruct n as [|p|p]; [| | lia].
  { change (NilZero.string_of_int (Z.to_int 0))
      with (NilEmpty.string_of_uint (Decimal.D0 Decimal.Nil)).
    now rewrite extract_uint. }
  cbn [Z.to_int NilZero.string_of_int].
  pose proof (DecimalPos.Unsigned.to_uint_nonnil p) as Hnil.
  replace (NilZero.string_of_uint (Pos.to_uint p))
    with (NilEmpty.string_of_uint (Pos.to_uint p))
    by (now destruct (Pos.to_uint p)).
  rewrite extract_uint by assumption.
  now rewrite DecimalPos.Unsigned.of_to.
Qed.

Lemma extract_episode_number_str_witness :
  extract_episode_number ("episode-" +:+ Py.str_int 204 +:+ ".txt")
  = Some 204.
Proof.
  apply (extract_episode_number_str "episode-" ".txt" 204);
    [lia | reflexivity | reflexivity].
Defined.

(** ** The list of transcripts *)

Lemma insert_by_in {A : Type} (key : A -> Z) (x y : A) (l : list A) :
  In y (insert_by key x l) <-> y = x \/ In y l.
Proof.
  induction l as [|z l IH]; cbn [insert_by].
  - simpl. intuition.
  - destruct (key x <=? key z); simpl; [intuition|].
    rewrite IH. intuition.
Qed.

Lemma insert_by_sorted {A : Type} (key : A -> Z) (x : A) (l : list A) :
  StronglySorted Z.le (map key l) ->
  StronglySorted Z.le (map key (insert_by key x l)).
Proof.
  induction l as [|y l IH]; intros Hs; cbn [insert_by map] in *.
  - repeat constructor.
  - apply StronglySorted_inv in Hs as [Hl Hy].
    destruct (Z.leb_spec (key x) (key y)) as [Hle|Hgt]; cbn [map].
    + constructor; [now constructor|].
      constructor; [assumption|].
      eapply List.Forall_impl; [|exact Hy]. intros k Hk. simpl in Hk. lia.
    + constructor; [now apply IH|].
      assert (Hin : forall k, In k (map key (insert_by key x l)) ->
                              k = key x \/ In k (map key l)).
      { intros k Hk. apply in_map_iff in Hk as (a & <- & Ha).
        apply insert_by_in in Ha as [->|Ha]; [now left|].
        right. now apply in_map. }
      apply List.Forall_forall. intros k Hk.
      rewrite List.Forall_forall in Hy.
      destruct (Hin k Hk) as [->|Hk']; [lia | now apply Hy].
Qed.

Lemma sorted_sorted {A : Type} (key : A -> Z) (l : list A) :
  StronglySorted Z.le (map key (sorted l key)).
Proof.
  unfold sorted. induction l as [|x l IH]; cbn [foldr].
  - constructor.
  - now apply insert_by_sorted.
Qed.

Lemma sorted_in {A : Type} (key : A -> Z) (y : A) (l : list A) :
  In y (sorted l key) <-> In y l.
Proof.
  unfold sorted. induction l as [|x l IH]; cbn [foldr]; [reflexivity|].
  rewrite insert_by_in, IH. simpl. intuition.
Qed.

Lemma fold_add_transcript_raise (w : world) (names : list string) (e : exn) :
  fold_left (add_transcript w) names (Raise e) = Raise e.
Proof. induction names as [|n names IH]; [reflexivity | exact IH]. Qed.

Lemma fold_add_transcript_ok (w : world) (names : list string)
  (acc ts : list item) :
  fold_left (add_transcript w) names (Ok acc) = Ok ts ->
  ts = acc ++ selected w (processed_or_empty w) names.
Proof.
  revert acc. induction names as [|name names IH]; intros acc H.
  - injection H as <-. unfold selected. simpl. now rewrite app_nil_r.
  - cbn [fold_left] in H.
    change (selected w (processed_or_empty w) (name :: names))
      with (selected_one w (processed_or_empty w) name
            ++ selected w (processed_or_empty w) names).
    assert (Hstep :
      add_transcript w (Ok acc) name
      = Ok (acc ++ selected_one w (processed_or_empty w) name)
      \/ exists e, add_transcript w (Ok acc) name = Raise e).
    { unfold add_transcript, selected_one, processed_or_empty. simpl.
      destruct (Py.endswith name ".txt"); [|left; now rewrite app_nil_r].
      destruct (get_processed_episodes w log_file_path) as [p|e]; simpl;
        [|right; eauto].
      destruct (bool_decide _); [left; now rewrite app_nil_r|].
      destruct (read_file_content w name); simpl;
        [left; reflexivity | right; eauto]. }
    destruct Hstep as [E|[e E]]; rewrite E in H.
    + apply IH in H. now rewrite H, <- app_assoc.
    + rewrite fold_add_transcript_raise in H. discriminate.
Qed.

Lemma selected_keys (w : world) (processed : gset string)
  (P : Z -> Prop) (names : list string) :
  Forall P (map sort_key names) ->
  Forall P (map item_key (selected w processed names)).
Proof.
  induction names as [|name names IH]; intros H; [constructor|].
  cbn [map] in H. apply Forall_cons in H as [Hn Hrest].
  unfold selected. cbn [flat_map]. rewrite map_app.
  apply Forall_app. split; [|now apply IH].
  unfold selected_one. destruct (Py.endswith _ _); [|constructor].
  destruct (bool_decide _); [constructor|].
  destruct (read_file_content w name); constructor; [exact Hn|constructor].
Qed.

Lemma selected_sorted (w : world) (processed : gset string)
  (names : list string) :
  StronglySorted Z.le (map sort_key names) ->
  StronglySorted Z.le (map item_key (selected w processed names)).
Proof.
  induction names as [|name names IH]; intros H; [constructor|].
  cbn [map] in H. apply StronglySorted_inv in H as [Hs Hall].
  unfold selected. cbn [flat_map]. fold (selected w processed names).
  pose proof (selected_keys w processed _ names Hall) as Hk.
  unfold selected_one. destruct (Py.endswith _ _); [|now apply IH].
  destruct (bool_decide _); [now apply IH|].
  destruct (read_file_content w name); [|now apply IH].
  cbn [app map]. constructor; [now apply IH | exact Hk].
Qed.

(** X4: the transcripts are handed to [create_pdf] in ascending order of
    identifier, a missing identifier counting as 0. *)
Theorem transcripts_ascending (w : world) (ts : list item) :
  transcripts w = Ok ts ->
  StronglySorted Z.le (map item_key ts).
Proof.
  unfold transcripts. intros H. apply fold_add_transcript_ok in H as ->.
  cbn [app]. apply selected_sorted. apply (sorted_sorted sort_key).
Qed.

Lemma transcripts_ascending_witness :
  StronglySorted Z.le (map item_key [(Some 1, "one"); (Some 10, "ten")]).
Proof.
  apply (transcripts_ascending demo_world). vm_compute. reflexivity.
Defined.

Lemma read_file_content_ok (w : world) (name content : string) :
  read_file_content w name = Ok content
  <-> files w !! name = Some (File content).
Proof.
  unfold read_file_content.
  destruct (files w !! name) as [[c|]|]; split; intros H;
    try discriminate; congruence.
Qed.

(** X5: the transcripts are exactly the [.txt] entries of the directory whose
    identifier is not in the log, each with the identifier taken from its
    name and the text of the file. *)
Theorem transcripts_member (w : world) (ts : list item)
  (episode_number : option Z) (content : string) :
  transcripts w = Ok ts ->
  (In (episode_number, content) ts
   <-> exists name,
         In name (listdir w)
         /\ Py.endswith name ".txt" = true
         /\ extract_episode_number name = episode_number
         /\ (Py.str episode_number ∉ processed_or_empty w)
         /\ files w !! name = Some (File content)).
Proof.
  unfold transcripts. intros H. apply fold_add_transcript_ok in H as ->.
  cbn [app]. unfold selected. rewrite in_flat_map. split.
  - intros (name & Hname & Hin). apply sorted_in in Hname.
    exists name. unfold selected_one in Hin.
    destruct (Py.endswith name ".txt"); [|contradiction].
    destruct (bool_decide_reflect
                (Py.str (extract_episode_number name)
                 ∈ processed_or_empty w)) as [|Hnot]; [contradiction|].
    destruct (read_file_content w name) as [c|e] eqn:Hread; [|contradiction].
    destruct Hin as [[= <- <-]|[]].
    apply read_file_content_ok in Hread. auto.
  - intros (name & Hname & Htxt & <- & Hnot & Hfile).
    exists name. split; [now apply sorted_in|].
    unfold selected_one. rewrite Htxt.
    rewrite bool_decide_eq_false_2 by assumption.
    apply read_file_content_ok in Hfile. rewrite Hfile. now left.
Qed.

Lemma transcripts_member_witness :
  In (Some 10, "ten") [(Some 1, "one"); (Some 10, "ten")]
  <-> exists name,
        In name (listdir demo_world)
        /\ Py.endswith name ".txt" = true
        /\ extract_episode_number name = Some 10
        /\ (Py.str (Some 10) ∉ processed_or_empty demo_world)
        /\ files demo_world !! name = Some (File "ten").
Proof.
  apply (transcripts_member demo_world). vm_compute. reflexivity.
Defined.

Lemma fold_add_transcript_total (w : world) (processed : gset string)
  (names : list string) (acc : list item) :
  get_processed_episodes w log_file_path = Ok processed ->
  (forall name, In name names -> Py.endswith name ".txt" = true ->
     Py.str (extract_episode_number name) ∉ processed ->
     exists c, files w !! name = Some (File c)) ->
  fold_left (add_transcript w) names (Ok acc)
  = Ok (acc ++ selected w processed names).
Proof.
  intros Hp. revert acc. induction names as [|name names IH]; intros acc Hf.
  - unfold selected. simpl. now rewrite app_nil_r.
  - cbn [fold_left].
    change (selected w processed (name :: names))
      with (selected_one w processed name ++ selected w processed names).
    assert (E : add_transcript w (Ok acc) name
                = Ok (acc ++ selected_one w processed name)).
    { unfold add_transcript, selected_one. simpl.
      destruct (Py.endswith name ".txt") eqn:Htxt; [|now rewrite app_nil_r].
      rewrite Hp. simpl.
      destruct (bool_decide_reflect
                  (Py.str (extract_episode_number name) ∈ processed))
        as [|Hnot]; [now rewrite app_nil_r|].
      destruct (Hf name (or_introl eq_refl) Htxt Hnot) as [c Hc].
      apply read_file_content_ok in Hc. now rewrite Hc. }
    rewrite E, IH, <- app_assoc; [reflexivity|].
    intros n Hn. apply Hf. now right.
Qed.

Lemma fold_add_transcript_unreadable (w : world) (e : exn)
  (names : list string) (acc : list item) :
  get_processed_episodes w log_file_path = Raise e ->
  fold_left (add_transcript w) names (Ok acc) = Ok acc
  \/ fold_left (add_transcript w) names (Ok acc) = Raise e.
Proof.
  intros Hp. induction names as [|name names IH]; [now left|].
  cbn [fold_left]. unfold add_transcript at 2 4. simpl.
  destruct (Py.endswith name ".txt"); [|exact IH].
  rewrite Hp. simpl. right. apply fold_add_transcript_raise.
Qed.

(** X7: when the path of the log is a directory the script stops with
    [IsADirectoryError] and makes no call on the canvas or the log, whether
    or not there is any transcript to read. *)
Theorem main_log_directory (stringWidth : string -> string -> Z -> Q)
  (w : world) :
  files w !! log_file_path = Some Directory ->
  main stringWidth w = Raise IsADirectoryError.
Proof.
  intros Hd.
  assert (Hp : get_processed_episodes w log_file_path
               = Raise IsADirectoryError)
    by (unfold get_processed_episodes; now rewrite Hd).
  assert (Ht : transcripts w = Ok [] \/
               transcripts w = Raise IsADirectoryError)
    by exact (fold_add_transcript_unreadable w _
                (sorted (listdir w) sort_key) [] Hp).
  unfold main. destruct Ht as [E|E]; rewrite E; simpl; [|reflexivity].
  unfold create_pdf. now rewrite Hp.
Qed.

Lemma main_log_directory_witness :
  main unit_width
    {| listdir := ["3.txt"; "processed_episodes.log"];
       files := list_to_map [("3.txt", File "three");
                             ("processed_episodes.log", Directory)] |}
  = Raise IsADirectoryError.
Proof.
  apply (main_log_directory unit_width
           {| listdir := ["3.txt"; "processed_episodes.log"];
              files := list_to_map [("3.txt", File "three");
                                    ("processed_episodes.log", Directory)] |}).
  vm_compute. reflexivity.
Defined.

Lemma selected_all_processed (w : world) (processed : gset string)
  (names : list string) :
  (forall name, In name names -> Py.endswith name ".txt" = true ->
     Py.str (extract_episode_number name) ∈ processed) ->
  selected w processed names = [].
Proof.
  induction names as [|name names IH]; intros H; [reflexivity|].
  unfold selected. cbn [flat_map]. fold (selected w processed names).
  rewrite IH by (intros n Hn; apply H; now right).
  unfold selected_one. destruct (Py.endswith name ".txt") eqn:Htxt;
    [|reflexivity].
  now rewrite bool_decide_eq_true_2 by (apply H; [now left | assumption]).
Qed.

(** X8: when every [.txt] entry is already in the log, the script still writes
    a document: it holds the index title alone, no index line, no episode,
    and nothing is added to the log. *)
Theorem main_nothing_left (stringWidth : string -> string -> Z -> Q)
  (w : world) (processed : gset string) :
  get_processed_episodes w log_file_path = Ok processed ->
  (forall name, In name (listdir w) -> Py.endswith name ".txt" = true ->
     Py.str (extract_episode_number name) ∈ processed) ->
  main stringWidth w
  = Ok [Canvas output_pdf; setFont "Helvetica-Bold" 14;
        drawString 50 682 "Index of Episodes"; setFont "Helvetica" 12;
        showPage; save].
Proof.
  intros Hp Hall.
  assert (Ht : transcripts w = Ok []).
  { unfold transcripts.
    rewrite (fold_add_transcript_total w processed); [|exact Hp|].
    - rewrite selected_all_processed; [reflexivity|].
      intros name Hname. apply Hall. now apply (sorted_in sort_key).
    - intros name Hname Htxt Hnot. exfalso. apply Hnot, Hall; [|exact Htxt].
      now apply (sorted_in sort_key). }
  unfold main. rewrite Ht. simpl.
  rewrite (create_pdf_eq stringWidth 612 792 margins log_file_path w _
             output_pdf processed Hp).
  reflexivity.
Qed.

Lemma main_nothing_left_witness :
  main unit_width world_seen
  = Ok [Canvas output_pdf; setFont "Helvetica-Bold" 14;
        drawString 50 682 "Index of Episodes"; setFont "Helvetica" 12;
        showPage; save].
Proof.
  apply (main_nothing_left unit_width world_seen (list_to_set ["1"])).
  - reflexivity.
  - intros name Hname Htxt. simpl in Hname.
    destruct Hname as [<-|[<-|[]]]; [|discriminate Htxt].
    change (Py.str (extract_episode_number "1.txt")) with "1". set_solver.
Defined.

(** ** More on the wrapper *)

Section WrapMore.

Variable stringWidth : string -> string -> Z -> Q.
Variables (width : Q) (font_name : string) (font_size : Z).

Local Abbreviation measure := (fun s => stringWidth s font_name font_size).
Local Abbreviation run := (greedy stringWidth width font_name font_size).
Local Abbreviation lines_of :=
  (segment_lines stringWidth width font_name font_size).

Lemma run_breaks (ws : list string) (cl : string)
  (pre post : list string) (l1 l2 : string) :
  run cl ws = pre ++ l1 :: l2 :: post ->
  exists w tail,
    In w ws /\ l2 = (w +:+ " ") +:+ tail /\ (width < measure (l1 +:+ w))%Q.
Proof.
  revert cl pre. induction ws as [|w ws IH]; intros cl pre H.
  - cbn [greedy] in H. destruct pre as [|? [|? ?]]; discriminate.
  - cbn [greedy] in H. destruct (Qle_bool _ width) eqn:Hfit.
    + apply IH in H as (w' & tail & Hin & Hl2 & Hw).
      exists w', tail. split; [now right | now split].
    + destruct pre as [|x pre].
      * injection H as <- H.
        destruct (run_head stringWidth width font_name font_size ws
                    (w +:+ " ")) as (tail & rest & Hrun).
        rewrite Hrun in H. injection H as <- _.
        exists w, tail. split; [now left|]. split; [reflexivity|].
        apply Qnot_le_lt. intros Hle. apply Qle_bool_iff in Hle.
        congruence.
      * injection H as _ H. apply IH in H as (w' & tail & Hin & Hl2 & Hw).
        exists w', tail. split; [now right | now split].
Qed.

Lemma run_length (ws : list string) (cl : string) :
  (1 <= length (run cl ws) <= S (length ws))%nat.
Proof.
  revert cl. induction ws as [|w ws IH]; intros cl; cbn [greedy length].
  - lia.
  - destruct (Qle_bool _ width); cbn [length].
    + specialize (IH (cl +:+ (w +:+ " "))). lia.
    + specialize (IH (w +:+ " ")). lia.
Qed.

Lemma run_fits (ws : list string) (cl : string) :
  (forall a b : string, (measure a <= measure (a +:+ b))%Q) ->
  ws <> [] ->
  (measure (cl +:+ String.concat " " ws) <= width)%Q ->
  run cl ws = [cl +:+ String.concat " " ws +:+ " "].
Proof.
  intros Hmono. revert cl.
  induction ws as [|w ws IH]; intros cl Hne Hfit; [congruence|].
  cbn [greedy]. destruct ws as [|w2 ws].
  - cbn [String.concat] in *.
    apply Qle_bool_iff in Hfit. rewrite Hfit. reflexivity.
  - change (String.concat " " (w :: w2 :: ws))
      with (w +:+ " " +:+ String.concat " " (w2 :: ws)) in *.
    assert (Hw : Qle_bool (measure (cl +:+ w)) width = true).
    { apply Qle_bool_iff. eapply Qle_trans; [|exact Hfit].
      rewrite <- append_assoc. apply Hmono. }
    rewrite Hw. rewrite IH; [|discriminate|].
    + now rewrite !append_assoc.
    + now rewrite !append_assoc.
Qed.

End WrapMore.

(** X9: the wrapper is greedy: within the lines of one segment, a line is
    closed only when the word that starts the next line did not fit after
    it. *)
Theorem wrap_text_greedy
  (stringWidth : string -> string -> Z -> Q) (width : Q)
  (font_name : string) (font_size : Z) (seg : string)
  (pre post : list string) (l1 l2 : string) :
  segment_lines stringWidth width font_name font_size seg
  = pre ++ l1 :: l2 :: post ->
  exists w tail,
    In w (Py.split seg)
    /\ l2 = (w +:+ " ") +:+ tail
    /\ (width < stringWidth (l1 +:+ w) font_name font_size)%Q.
Proof.
  intros H. destruct (blank seg) eqn:Hb.
  - rewrite lines_of_blank in H by assumption.
    destruct pre as [|? [|? ?]]; discriminate.
  - rewrite lines_of_words in H by assumption.
    now apply run_breaks in H.
Qed.

Lemma wrap_text_greedy_witness :
  exists w tail,
    In w (Py.split "the quick brown fox")
    /\ "brown fox " = (w +:+ " ") +:+ tail
    /\ (inject_Z 9 < unit_width ("the quick " +:+ w) "Helvetica" 12)%Q.
Proof.
  apply (wrap_text_greedy unit_width (inject_Z 9) "Helvetica" 12
           "the quick brown fox" [] [] "the quick " "brown fox ").
  vm_compute. reflexivity.
Defined.

(** X10: a segment that fits is not broken: when widths never shrink as text is
    added after, and the tokens joined by single spaces fit the usable
    width, the segment gives one line, those tokens joined by single spaces
    and followed by the synthetic space. *)
Theorem wrap_text_fits_one_line
  (stringWidth : string -> string -> Z -> Q) (width : Q)
  (font_name : string) (font_size : Z) (seg : string) :
  (forall a b : string,
     (stringWidth a font_name font_size
      <= stringWidth (a +:+ b) font_name font_size)%Q) ->
  Py.split seg <> [] ->
  (stringWidth (String.concat " " (Py.split seg)) font_name font_size
   <= width)%Q ->
  segment_lines stringWidth width font_name font_size seg
  = [String.concat " " (Py.split seg) +:+ " "].
Proof.
  intros Hmono Hne Hfit.
  assert (Hb : blank seg = false).
  { destruct (blank seg) eqn:Hb; [|reflexivity].
    now rewrite (blank_split seg Hb) in Hne. }
  rewrite lines_of_words by assumption.
  rewrite (run_fits stringWidth width font_name font_size _ "" Hmono Hne);
    [reflexivity | exact Hfit].
Qed.

Lemma wrap_text_fits_one_line_witness :
  segment_lines unit_width (inject_Z 40) "Helvetica" 12
    "  two   spaced    words "
  = [String.concat " " (Py.split "  two   spaced    words ") +:+ " "].
Proof.
  apply (wrap_text_fits_one_line unit_width (inject_Z 40) "Helvetica" 12
           "  two   spaced    words " unit_width_prefix).
  - vm_compute. discriminate.
  - vm_compute. discriminate.
Defined.

(** X11: no segment disappears and none explodes: every newline-delimited
    segment gives at least one line and at most one line more than it has
    tokens, so the output is never empty and has at least as many lines as
    the input has segments. *)
Theorem wrap_text_line_count
  (stringWidth : string -> string -> Z -> Q) (text : string) (width : Q)
  (font_name : string) (font_size : Z) :
  Forall (fun seg =>
      (1 <= length (segment_lines stringWidth width font_name font_size seg)
       <= S (length (Py.split seg)))%nat)
    (Py.split_nl text)
  /\ (1 <= length (Py.split_nl text)
      <= length (wrap_text stringWidth text width font_name font_size))%nat.
Proof.
  assert (Hseg : forall seg,
    (1 <= length (segment_lines stringWidth width font_name font_size seg)
     <= S (length (Py.split seg)))%nat).
  { intros seg. destruct (blank seg) eqn:Hb.
    - rewrite lines_of_blank by assumption. simpl. lia.
    - rewrite lines_of_words by assumption. apply run_length. }
  split; [apply List.Forall_forall; intros seg _; apply Hseg|].
  split.
  - destruct text as [|c text]; simpl; [lia|].
    destruct (Ascii.eqb c Py.LF); [simpl; lia|].
    destruct (Py.split_nl text); simpl; lia.
  - rewrite wrap_text_concat.
    induction (Py.split_nl text) as [|seg segs IH]; simpl; [lia|].
    rewrite length_app. specialize (Hseg seg). lia.
Qed.

Lemma all_chars_append (P : ascii -> bool) (a b : string) :
  all_chars P (a +:+ b) = all_chars P a && all_chars P b.
Proof.
  induction a as [|c a IH]; [reflexivity|].
  rewrite append_cons. cbn [all_chars]. now rewrite IH, andb_assoc.
Qed.

Lemma all_chars_impl (P Q : ascii -> bool) (s : string) :
  (forall c, P c = true -> Q c = true) ->
  all_chars P s = true -> all_chars Q s = true.
Proof.
  intros HPQ. induction s as [|c s IH]; [reflexivity|]. cbn [all_chars].
  intros H. apply andb_true_iff in H as [Hc Hs].
  now rewrite (HPQ c Hc), IH.
Qed.

Lemma split_nl_no_lf (s : string) :
  Forall (fun seg => all_chars not_lf seg = true) (Py.split_nl s).
Proof.
  induction s as [|c s IH]; [now repeat constructor|].
  cbn [Py.split_nl]. destruct (Ascii.eqb c Py.LF) eqn:Hc.
  - now constructor.
  - destruct (Py.split_nl s) as [|h t].
    + constructor; [|constructor]. cbn [all_chars]. unfold not_lf.
      now rewrite Hc.
    + apply Forall_cons in IH as [Hh Ht]. constructor; [|exact Ht].
      cbn [all_chars]. unfold not_lf at 1. now rewrite Hc.
Qed.

Lemma split_no_space (s : string) :
  Forall (fun w => all_chars (fun c => negb (Py.isspace c)) w = true)
    (Py.split s).
Proof.
  induction s as [|c s IH]; [constructor|].
  rewrite split_cons. destruct (Py.isspace c) eqn:Hc; [exact IH|].
  destruct s as [|d s2].
  - constructor; [|constructor]. cbn [all_chars]. now rewrite Hc.
  - destruct (Py.isspace d) eqn:Hd.
    + constructor; [|exact IH]. cbn [all_chars]. now rewrite Hc.
    + destruct (Py.split (String d s2)) as [|w ws].
      * constructor; [|constructor]. cbn [all_chars]. now rewrite Hc.
      * apply Forall_cons in IH as [Hw Hws]. constructor; [|exact Hws].
        cbn [all_chars]. now rewrite Hc.
Qed.

Lemma space_is_not_lf (c : ascii) :
  negb (Py.isspace c) = true -> not_lf c = true.
Proof.
  unfold not_lf. destruct (Ascii.eqb_spec c Py.LF) as [->|]; [|reflexivity].
  intros H. discriminate H.
Qed.

Lemma greedy_no_lf (stringWidth : string -> string -> Z -> Q) (width : Q)
  (font_name : string) (font_size : Z) (ws : list string) (cl : string) :
  all_chars not_lf cl = true ->
  Forall (fun w => all_chars not_lf w = true) ws ->
  Forall (fun L => all_chars not_lf L = true)
    (greedy stringWidth width font_name font_size cl ws).
Proof.
  revert cl. induction ws as [|w ws IH]; intros cl Hcl Hws; cbn [greedy].
  - now constructor.
  - apply Forall_cons in Hws as [Hw Hws].
    assert (Hsp : all_chars not_lf (w +:+ " ") = true)
      by (rewrite all_chars_append, Hw; reflexivity).
    destruct (Qle_bool _ width).
    + apply IH; [|exact Hws]. now rewrite all_chars_append, Hcl, Hsp.
    + constructor; [exact Hcl|]. now apply IH.
Qed.

(** X12: no line returned by [wrap_text] holds a line feed: what reaches
    [drawString] is always a single line. *)
Theorem wrap_text_no_line_feed
  (stringWidth : string -> string -> Z -> Q) (text : string) (width : Q)
  (font_name : string) (font_size : Z) :
  Forall (fun L => all_chars not_lf L = true)
    (wrap_text stringWidth text width font_name font_size).
Proof.
  rewrite wrap_text_concat. apply List.Forall_forall. intros L HL.
  apply in_concat in HL as (ls & Hls & HL).
  apply in_map_iff in Hls as (seg & <- & Hseg).
  pose proof (split_nl_no_lf text) as Hnl.
  rewrite List.Forall_forall in Hnl. specialize (Hnl seg Hseg).
  destruct (blank seg) eqn:Hb.
  - rewrite lines_of_blank in HL by assumption. now destruct HL as [<-|[]].
  - rewrite lines_of_words in HL by assumption.
    revert L HL. apply List.Forall_forall. apply greedy_no_lf; [reflexivity|].
    eapply List.Forall_impl; [|apply split_no_space].
    intros w Hw. eapply all_chars_impl; [|exact Hw]. apply space_is_not_lf.
Qed.

(** ** More on the pages and the log writes *)

Section PageMore.

Variable stringWidth : string -> string -> Z -> Q.
Variables page_width page_height : Z.
Variable m : Margins.t.
Variable log : string.

Local Abbreviation start := (page_height - Margins.top m - 60).
Local Abbreviation limit := (Margins.bottom m + 30).
Local Abbreviation calls_of :=
  (item_calls stringWidth page_width page_height m log).

Lemma body_calls_in_place (ep : option Z) (lines : list string) (y : Z) :
  limit < start -> y <= start ->
  Forall (draws_in_place page_height m)
    (body_calls page_width page_height m ep y lines).
Proof.
  intros Hgeo. revert y.
  induction lines as [|line rest IH]; intros y Hy; [constructor|].
  cbn [body_calls]. destruct (Z.leb_spec y limit) as [Hle|Hgt].
  - repeat (constructor; [simpl; try tauto; lia|]). apply IH. lia.
  - constructor; [simpl; lia|]. apply IH. lia.
Qed.

Lemma index_calls_in_place (ts : list item) (y : Z) :
  limit < start -> y <= start ->
  Forall (draws_in_place page_height m)
    (index_calls page_width page_height m y ts).
Proof.
  intros Hgeo. revert y.
  induction ts as [|[ep text] rest IH]; intros y Hy; [constructor|].
  cbn [index_calls]. destruct (Z.leb_spec y limit) as [Hle|Hgt].
  - repeat (constructor; [simpl; try tauto; lia|]). apply IH. lia.
  - constructor; [simpl; lia|]. apply IH. lia.
Qed.

Lemma item_calls_in_place (processed : gset string) (it : item) :
  limit < start ->
  Forall (draws_in_place page_height m) (calls_of processed it).
Proof.
  intros Hgeo. unfold item_calls. destruct (bool_decide _); [constructor|].
  apply Forall_app. split; [|repeat constructor].
  unfold item_draws. repeat (constructor; [simpl; try tauto; lia|]).
  apply body_calls_in_place; lia.
Qed.

Lemma no_log_filter (l : list call) :
  forallb (fun c => negb (is_log_write c)) l = true ->
  List.filter is_log_write l = [].
Proof.
  induction l as [|c l IH]; [reflexivity|]. cbn [forallb List.filter].
  intros H. apply andb_true_iff in H as [Hc Hl].
  destruct (is_log_write c); [discriminate | now apply IH].
Qed.

Lemma log_writes_of_items (processed : gset string) (ts : list item) :
  List.filter is_log_write (concat (map (calls_of processed) ts))
  = map (fun it => log_write log (Py.str (fst it) +:+ nl))
      (unprocessed processed ts).
Proof.
  induction ts as [|it ts IH]; [reflexivity|].
  cbn [map concat]. rewrite List.filter_app, IH.
  unfold unprocessed. cbn [List.filter]. unfold item_calls at 1.
  destruct (bool_decide _); cbn [negb]; [reflexivity|].
  rewrite List.filter_app, no_log_filter
    by apply (item_draws_no_log stringWidth page_width page_height m).
  reflexivity.
Qed.

Lemma ends_with_page (processed : gset string) (before : list item)
  (X : list call) :
  (exists pre, X = pre ++ [showPage]) ->
  exists pre,
    X ++ concat (map (calls_of processed) before) = pre ++ [showPage].
Proof.
  revert X. induction before as [|it before IH]; intros X [pre HX].
  - exists pre. cbn [map concat]. now rewrite app_nil_r.
  - cbn [map concat]. rewrite app_assoc. apply IH.
    unfold item_calls. destruct (bool_decide _).
    + exists pre. now rewrite app_nil_r.
    + eexists (X ++ item_draws stringWidth page_width page_height m it
                 ++ [log_write log (Py.str (fst it) +:+ nl)]).
      rewrite <- !app_assoc. reflexivity.
Qed.

End PageMore.

Lemma create_pdf_processed (stringWidth : string -> string -> Z -> Q)
  (letter : Z * Z) (w : world) (ts : list item) (output_filename : string)
  (m : Margins.t) (log : string) (calls : list call) :
  create_pdf stringWidth letter w ts output_filename m log = Ok calls ->
  exists processed,
    get_processed_episodes w log = Ok processed
    /\ calls
       = [Canvas output_filename; setFont "Helvetica-Bold" 14;
          drawString (Margins.left m) (snd letter - Margins.top m - 60)
            "Index of Episodes";
          setFont "Helvetica" 12]
         ++ index_calls (fst letter) (snd letter) m
              (snd letter - Margins.top m - 60 - 16) ts
         ++ [showPage]
         ++ concat (map (item_calls stringWidth (fst letter) (snd letter)
                           m log processed) ts)
         ++ [save].
Proof.
  destruct letter as [pw ph]. cbn [fst snd]. intros Hrun.
  destruct (get_processed_episodes w log) as [processed|e] eqn:Hp;
    [|unfold create_pdf in Hrun; rewrite Hp in Hrun; discriminate].
  exists processed. split; [reflexivity|].
  rewrite (create_pdf_eq _ _ _ _ _ _ _ _ processed Hp) in Hrun.
  now injection Hrun as <-.
Qed.

(** X13: nothing is drawn outside its place: on a page whose text band is not
    empty, every [drawString] of a run is at the left margin and either on
    the header line, on the footer line, or above bottom margin + 30 and
    not above page height - top margin - 60. *)
Theorem create_pdf_draws_in_place
  (stringWidth : string -> string -> Z -> Q) (letter : Z * Z) (w : world)
  (ts : list item) (output_filename : string) (m : Margins.t)
  (log : string) (calls : list call) :
  create_pdf stringWidth letter w ts output_filename m log = Ok calls ->
  Margins.bottom m + 30 < snd letter - Margins.top m - 60 ->
  Forall (draws_in_place (snd letter) m) calls.
Proof.
  intros Hrun Hgeo.
  apply create_pdf_processed in Hrun as (processed & _ & ->).
  cbn [app].
  repeat (constructor; [cbn [draws_in_place]; try exact I; lia|]).
  apply Forall_app.
  split; [apply (index_calls_in_place stringWidth _ _ m log); lia|].
  constructor; [exact I|]. apply Forall_app. split; [|repeat constructor].
  apply List.Forall_forall. intros c Hc.
  apply in_concat in Hc as (cs & Hcs & Hc).
  apply in_map_iff in Hcs as (it & <- & _).
  pose proof (item_calls_in_place stringWidth (fst letter) (snd letter) m
                log processed it Hgeo) as Hall.
  rewrite List.Forall_forall in Hall. now apply Hall.
Qed.

Lemma create_pdf_draws_in_place_witness :
  Forall (draws_in_place (snd letter) margins) calls_fresh.
Proof.
  apply (create_pdf_draws_in_place unit_width letter world_fresh two_items
           output_pdf margins log_file_path calls_fresh).
  - vm_compute. reflexivity.
  - vm_compute. reflexivity.
Defined.

(** X14: the log receives exactly the identifiers of the items that were not in
    it when the run started: one write per such item, identifier and
    newline, in the order of the items, and no other write. *)
Theorem create_pdf_log_writes
  (stringWidth : string -> string -> Z -> Q) (letter : Z * Z) (w : world)
  (ts : list item) (output_filename : string) (m : Margins.t)
  (log : string) (calls : list call) (processed : gset string) :
  create_pdf stringWidth letter w ts output_filename m log = Ok calls ->
  get_processed_episodes w log = Ok processed ->
  List.filter is_log_write calls
  = map (fun it => log_write log (Py.str (fst it) +:+ nl))
      (unprocessed processed ts).
Proof.
  intros Hrun Hp.
  apply create_pdf_processed in Hrun as (processed' & Hp' & ->).
  assert (processed' = processed) as -> by congruence.
  cbn [app List.filter is_log_write].
  rewrite List.filter_app, no_log_filter by apply index_calls_no_log.
  cbn [app List.filter is_log_write].
  rewrite List.filter_app, log_writes_of_items.
  cbn [List.filter is_log_write]. now rewrite app_nil_r.
Qed.

Lemma create_pdf_log_writes_witness :
  List.filter is_log_write calls_fresh
  = map (fun it => log_write log_file_path (Py.str (fst it) +:+ nl))
      (unprocessed ∅ two_items).
Proof.
  apply (create_pdf_log_writes unit_width letter world_fresh two_items
           output_pdf margins log_file_path calls_fresh ∅).
  - vm_compute. reflexivity.
  - reflexivity.
Defined.

(** X15: every item that is not skipped starts on a fresh page and ends its
    last page: its first call comes right after a [showPage], and its log
    write is followed at once by a [showPage]. *)
Theorem create_pdf_item_pages
  (stringWidth : string -> string -> Z -> Q) (letter : Z * Z) (w : world)
  (ts : list item) (output_filename : string) (m : Margins.t)
  (log : string) (calls : list call) (processed : gset string)
  (before after : list item) (it : item) :
  create_pdf stringWidth letter w ts output_filename m log = Ok calls ->
  get_processed_episodes w log = Ok processed ->
  ts = before ++ it :: after ->
  Py.str (fst it) ∉ processed ->
  exists pre post,
    calls = pre ++ showPage
            :: item_draws stringWidth (fst letter) (snd letter) m it
            ++ log_write log (Py.str (fst it) +:+ nl) :: showPage :: post.
Proof.
  intros Hrun Hp -> Hnot.
  apply create_pdf_processed in Hrun as (processed' & Hp' & ->).
  assert (processed' = processed) as -> by congruence.
  rewrite map_app, concat_app. cbn [map concat].
  unfold item_calls at 2. rewrite bool_decide_eq_false_2 by assumption.
  set (X := [Canvas output_filename; setFont "Helvetica-Bold" 14;
             drawString (Margins.left m)
               (snd letter - Margins.top m - 60) "Index of Episodes";
             setFont "Helvetica" 12]
            ++ index_calls (fst letter) (snd letter) m
                 (snd letter - Margins.top m - 60 - 16)
                 (before ++ it :: after)
            ++ [showPage]).
  destruct (ends_with_page stringWidth (fst letter) (snd letter) m log
              processed before X) as [pre Hpre].
  { eexists. unfold X. rewrite app_assoc. reflexivity. }
  exists pre.
  exists (concat (map (item_calls stringWidth (fst letter) (snd letter) m
                         log processed) after) ++ [save]).
  transitivity
    ((X ++ concat (map (item_calls stringWidth (fst letter) (snd letter) m
                          log processed) before))
     ++ item_draws stringWidth (fst letter) (snd letter) m it
     ++ log_write log (Py.str (fst it) +:+ nl) :: showPage
        :: concat (map (item_calls stringWidth (fst letter) (snd letter) m
                          log processed) after) ++ [save]).
  - unfold X. rewrite <- !app_assoc. reflexivity.
  - rewrite Hpre, <- app_assoc. reflexivity.
Qed.

Lemma create_pdf_item_pages_witness :
  exists pre post,
    calls_fresh
    = pre ++ showPage
      :: item_draws unit_width (fst letter) (snd letter) margins
           (Some 2, "bye")
      ++ log_write log_file_path (Py.str (fst (Some 2, "bye")) +:+ nl)
         :: showPage :: post.
Proof.
  apply (create_pdf_item_pages unit_width letter world_fresh two_items
           output_pdf margins log_file_path calls_fresh ∅
           [(Some 1, "hello world")] [] (Some 2, "bye")).
  - vm_compute. reflexivity.
  - reflexivity.
  - reflexivity.
  - set_solver.
Defined.

(** ** Writing the log and reading it back *)

Lemma splitlines_cons (c : ascii) (s : string) :
  Py.splitlines (String c s) =
  if Py.islinebreak c then
    match s with
    | String d s2 =>
        if Ascii.eqb c Py.CR && Ascii.eqb d Py.LF
        then "" :: Py.splitlines s2
        else "" :: Py.splitlines s
    | EmptyString => [""]
    end
  else match Py.splitlines s with
       | h :: t => String c h :: t
       | [] => [String c ""]
       end.
Proof. reflexivity. Qed.

Lemma splitlines_nonempty (c : ascii) (s : string) :
  Py.splitlines (String c s) <> [].
Proof.
  rewrite splitlines_cons. destruct (Py.islinebreak c).
  - destruct s as [|d s2]; [discriminate|].
    destruct (Ascii.eqb c Py.CR && Ascii.eqb d Py.LF); discriminate.
  - destruct (Py.splitlines s); discriminate.
Qed.

Lemma splitlines_app_nl_bounded (n : nat) (a b : string) :
  (String.length a <= n)%nat ->
  Py.splitlines ((a +:+ nl) +:+ b)
  = Py.splitlines (a +:+ nl) ++ Py.splitlines b.
Proof.
  revert a. induction n as [|n IH]; intros a Hn.
  - destruct a; [|simpl in Hn; lia].
    change (("" +:+ nl) +:+ b) with (String Py.LF b).
    rewrite splitlines_cons. now destruct b.
  - destruct a as [|c a]; [apply (IH ""); simpl; lia|].
    simpl in Hn. rewrite !append_cons, !splitlines_cons.
    destruct (Py.islinebreak c).
    + destruct a as [|d a2].
      * change (("" +:+ nl) +:+ b) with (String Py.LF b).
        change ("" +:+ nl) with (String Py.LF "").
        destruct (Ascii.eqb c Py.CR); cbn [andb Ascii.eqb Py.LF].
        -- reflexivity.
        -- cbn [app]. f_equal.
           apply (IH ""). simpl. lia.
      * rewrite !append_cons.
        destruct (Ascii.eqb c Py.CR && Ascii.eqb d Py.LF).
        -- cbn [app]. f_equal. apply IH. simpl in Hn. lia.
        -- cbn [app]. f_equal. rewrite <- !append_cons.
           apply IH. lia.
    + rewrite IH by lia.
      destruct (Py.splitlines (a +:+ nl)) as [|h t] eqn:E; [|reflexivity].
      exfalso. destruct a; [discriminate E|].
      rewrite append_cons in E. now apply splitlines_nonempty in E.
Qed.

Lemma splitlines_app_nl (a b : string) :
  Py.splitlines ((a +:+ nl) +:+ b)
  = Py.splitlines (a +:+ nl) ++ Py.splitlines b.
Proof. now apply (splitlines_app_nl_bounded (String.length a)). Qed.

Lemma splitlines_line (s : string) :
  all_chars not_linebreak s = true -> Py.splitlines (s +:+ nl) = [s].
Proof.
  induction s as [|c s IH]; intros H; [reflexivity|].
  cbn [all_chars] in H. apply andb_true_iff in H as [Hc Hs].
  rewrite append_cons, splitlines_cons.
  unfold not_linebreak in Hc. apply negb_true_iff in Hc. rewrite Hc.
  now rewrite IH.
Qed.

Lemma splitlines_terminated (c id : string) :
  (c = "" \/ exists c', c = c' +:+ nl) ->
  all_chars not_linebreak id = true ->
  Py.splitlines (c +:+ (id +:+ nl)) = Py.splitlines c ++ [id].
Proof.
  intros [->|[c' ->]] Hid.
  - rewrite append_nil_l. now apply splitlines_line.
  - rewrite splitlines_app_nl. now rewrite (splitlines_line id).
Qed.

Lemma get_processed_episodes_content (w : world) (path : string) :
  files w !! path <> Some Directory ->
  get_processed_episodes w path
  = Ok (list_to_set (Py.splitlines (log_content (files w) path))).
Proof.
  unfold get_processed_episodes, log_content.
  destruct (files w !! path) as [[c|]|]; [reflexivity | congruence|].
  reflexivity.
Qed.

Lemma write_append_content (fs : gmap string node) (path data : string) :
  fs !! path <> Some Directory ->
  exists fs',
    write_append fs path data = Ok fs'
    /\ fs' !! path = Some (File (log_content fs path +:+ data)).
Proof.
  unfold write_append, log_content. intros H.
  destruct (fs !! path) as [[c|]|]; [|congruence|];
    eexists; (split; [reflexivity|]); now rewrite lookup_insert_eq.
Qed.

(** X16: what [update_log_file] writes is read back by
    [get_processed_episodes]: on a log that is missing, empty or ends with
    a newline, after the identifier is appended the set of processed
    episodes is the former set with that identifier added. *)
Theorem update_log_then_read (w w' : world) (path id : string)
  (processed : gset string) :
  get_processed_episodes w path = Ok processed ->
  log_terminated (files w) path ->
  all_chars not_linebreak id = true ->
  apply_log_writes (files w) (update_log_file path id) = Ok (files w') ->
  get_processed_episodes w' path = Ok ({[id]} ∪ processed).
Proof.
  intros Hp [Hfile Hend] Hid Hw.
  rewrite get_processed_episodes_content in Hp by assumption.
  injection Hp as <-.
  destruct (write_append_content (files w) path (id +:+ nl) Hfile)
    as (fs' & Hfs' & Hlook).
  unfold update_log_file in Hw. cbn [apply_log_writes] in Hw.
  rewrite Hfs' in Hw. simpl in Hw. injection Hw as ->.
  rewrite get_processed_episodes_content by (rewrite Hlook; discriminate).
  unfold log_content at 1. rewrite Hlook.
  rewrite splitlines_terminated by assumption.
  rewrite list_to_set_app_L, (comm_L (∪)). cbn [list_to_set].
  now rewrite (right_id_L ∅ (∪)).
Qed.

Lemma update_log_then_read_witness :
  get_processed_episodes world_seen_after log_file_path
  = Ok ({["2"]} ∪ list_to_set ["1"]).
Proof.
  apply (update_log_then_read world_seen world_seen_after log_file_path "2"
           (list_to_set ["1"])).
  - reflexivity.
  - split; [vm_compute; discriminate|]. right. exists "1". reflexivity.
  - reflexivity.
  - vm_compute. reflexivity.
Defined.

(** X17: a log whose last line is not ended by a newline swallows the next
    identifier: [update_log_file] appends without looking, so what is read
    back is that last line with the identifier glued to it, not the
    identifier. *)
Theorem update_log_unterminated (w w' : world) (path id pre last : string) :
  files w !! path = Some (File (pre +:+ last)) ->
  (pre = "" \/ exists p, pre = p +:+ nl) ->
  all_chars not_linebreak last = true ->
  all_chars not_linebreak id = true ->
  apply_log_writes (files w) (update_log_file path id) = Ok (files w') ->
  get_processed_episodes w' path
  = Ok ({[last +:+ id]} ∪ list_to_set (Py.splitlines pre)).
Proof.
  intros Hfile Hpre Hlast Hid Hw.
  assert (Hnd : files w !! path <> Some Directory)
    by (rewrite Hfile; discriminate).
  destruct (write_append_content (files w) path (id +:+ nl) Hnd)
    as (fs' & Hfs' & Hlook).
  unfold update_log_file in Hw. cbn [apply_log_writes] in Hw.
  rewrite Hfs' in Hw. simpl in Hw. injection Hw as ->.
  rewrite get_processed_episodes_content by (rewrite Hlook; discriminate).
  unfold log_content at 1. rewrite Hlook.
  unfold log_content. rewrite Hfile.
  rewrite append_assoc, <- (append_assoc last id nl).
  rewrite splitlines_terminated;
    [|assumption | now rewrite all_chars_append, Hlast, Hid].
  rewrite list_to_set_app_L, (comm_L (∪)). cbn [list_to_set].
  now rewrite (right_id_L ∅ (∪)).
Qed.

Lemma update_log_unterminated_witness :
  get_processed_episodes world_cut_after log_file_path
  = Ok ({["2" +:+ "3"]} ∪ list_to_set (Py.splitlines ("1" +:+ nl))).
Proof.
  apply (update_log_unterminated world_cut world_cut_after log_file_path
           "3" ("1" +:+ nl) "2").
  - vm_compute. reflexivity.
  - right. exists "1". reflexivity.
  - reflexivity.
  - reflexivity.
  - vm_compute. reflexivity.
Defined.

Lemma digit_not_linebreak (c : ascii) :
  Py.isdigit c = true -> not_linebreak c = true.
Proof.
  destruct c as [[] [] [] [] [] [] [] []]; vm_compute; congruence.
Qed.

Lemma string_of_uint_digits (d : Decimal.uint) :
  all_chars Py.isdigit (NilEmpty.string_of_uint d) = true.
Proof. induction d; [reflexivity|..]; exact IHd. Qed.

Lemma str_no_linebreak (v : option Z) :
  all_chars not_linebreak (Py.str v) = true.
Proof.
  destruct v as [n|]; [|reflexivity].
  unfold Py.str, Py.str_int.
  assert (Hu : forall d, all_chars not_linebreak (NilZero.string_of_uint d)
                         = true).
  { intros d. destruct d; [reflexivity|..];
      (eapply all_chars_impl; [apply digit_not_linebreak|]);
      apply string_of_uint_digits. }
  destruct (Z.to_int n) as [d|d]; cbn [NilZero.string_of_int].
  - apply Hu.
  - cbn [all_chars]. now rewrite Hu.
Qed.

Lemma apply_log_writes_filter (calls : list call) (fs : gmap string node) :
  apply_log_writes fs calls
  = apply_log_writes fs (List.filter is_log_write calls).
Proof.
  revert fs. induction calls as [|c calls IH]; intros fs; [reflexivity|].
  destruct c as [| | | | |path data];
    cbn [apply_log_writes List.filter is_log_write]; try apply IH.
  destruct (write_append fs path data); simpl; [apply IH | reflexivity].
Qed.

Lemma apply_log_writes_ids (path : string) (ids : list string)
  (fs : gmap string node) :
  log_terminated fs path ->
  Forall (fun id => all_chars not_linebreak id = true) ids ->
  exists fs',
    apply_log_writes fs (map (fun id => log_write path (id +:+ nl)) ids)
    = Ok fs'
    /\ log_terminated fs' path
    /\ Py.splitlines (log_content fs' path)
       = Py.splitlines (log_content fs path) ++ ids.
Proof.
  revert fs. induction ids as [|id ids IH]; intros fs Hfs Hids.
  - exists fs. cbn [map apply_log_writes]. now rewrite app_nil_r.
  - apply Forall_cons in Hids as [Hid Hids].
    destruct Hfs as [Hnd Hend].
    destruct (write_append_content fs path (id +:+ nl) Hnd)
      as (fs1 & Hfs1 & Hlook).
    assert (Hc1 : log_content fs1 path = log_content fs path +:+ (id +:+ nl))
      by (unfold log_content at 1; now rewrite Hlook).
    destruct (IH fs1) as (fs' & Hrun & Hterm & Hlines); [|exact Hids|].
    { split; [rewrite Hlook; discriminate|]. right.
      exists (log_content fs path +:+ id). now rewrite Hc1, append_assoc. }
    exists fs'. cbn [map apply_log_writes]. rewrite Hfs1. simpl.
    split; [exact Hrun|]. split; [exact Hterm|].
    rewrite Hlines, Hc1, splitlines_terminated by assumption.
    now rewrite <- app_assoc.
Qed.

Lemma item_calls_all_processed
  (stringWidth : string -> string -> Z -> Q) (page_width page_height : Z)
  (m : Margins.t) (log : string) (processed : gset string)
  (ts : list item) :
  (forall it, In it ts -> Py.str (fst it) ∈ processed) ->
  concat (map (item_calls stringWidth page_width page_height m log
                 processed) ts) = [].
Proof.
  induction ts as [|it ts IH]; intros H; [reflexivity|].
  cbn [map concat]. rewrite IH by (intros x Hx; apply H; now right).
  unfold item_calls.
  now rewrite bool_decide_eq_true_2 by (apply H; now left).
Qed.

Lemma unprocessed_in (processed : gset string) (ts : list item) (it : item) :
  In it ts -> Py.str (fst it) ∉ processed -> In it (unprocessed processed ts).
Proof.
  intros Hin Hnot. unfold unprocessed. apply filter_In. split; [exact Hin|].
  now rewrite bool_decide_eq_false_2.
Qed.

(** X18: running twice does the work once: after a run on a log that is
    missing, empty or ends with a newline, the log writes of the run can be
    carried out, and a second call on the same items with that log draws the
    index and nothing else: no header, no title, no body line, no log
    write. *)
Theorem create_pdf_second_run
  (stringWidth : string -> string -> Z -> Q) (letter : Z * Z) (w : world)
  (ts : list item) (output_filename : string) (m : Margins.t)
  (log : string) (calls : list call) :
  create_pdf stringWidth letter w ts output_filename m log = Ok calls ->
  log_terminated (files w) log ->
  exists fs',
    apply_log_writes (files w) calls = Ok fs'
    /\ forall (w' : world) (output_filename' : string),
         files w' !! log = fs' !! log ->
         create_pdf stringWidth letter w' ts output_filename' m log
         = Ok ([Canvas output_filename'; setFont "Helvetica-Bold" 14;
                drawString (Margins.left m)
                  (snd letter - Margins.top m - 60) "Index of Episodes";
                setFont "Helvetica" 12]
               ++ index_calls (fst letter) (snd letter) m
                    (snd letter - Margins.top m - 60 - 16) ts
               ++ [showPage; save]).
Proof.
  intros Hrun Hterm.
  pose proof Hrun as Hform.
  apply create_pdf_processed in Hform as (processed & Hp & _).
  pose proof (create_pdf_log_writes _ _ _ _ _ _ _ _ _ Hrun Hp) as Hwrites.
  destruct (apply_log_writes_ids log
              (map (fun it => Py.str (fst it)) (unprocessed processed ts))
              (files w) Hterm) as (fs' & Hfs' & [Hnd' _] & Hlines).
  { apply List.Forall_forall. intros id Hid.
    apply in_map_iff in Hid as (it & <- & _). apply str_no_linebreak. }
  rewrite map_map in Hfs'.
  exists fs'. split.
  { now rewrite apply_log_writes_filter, Hwrites. }
  intros w' output_filename' Hsame.
  assert (Hp' : get_processed_episodes w' log
                = Ok (list_to_set (Py.splitlines (log_content fs' log)))).
  { rewrite get_processed_episodes_content by (now rewrite Hsame).
    unfold log_content. now rewrite Hsame. }
  destruct letter as [pw ph]. cbn [fst snd].
  rewrite (create_pdf_eq _ _ _ _ _ _ _ _ _ Hp').
  rewrite item_calls_all_processed; [reflexivity|].
  intros it Hit. rewrite Hlines, list_to_set_app_L.
  destruct (decide (Py.str (fst it) ∈ processed)) as [Hin|Hnot].
  - apply elem_of_union_l.
    rewrite get_processed_episodes_content in Hp by apply Hterm.
    injection Hp as <-. exact Hin.
  - apply elem_of_union_r, elem_of_list_to_set, list_elem_of_In.
    apply in_map_iff. exists it. split; [reflexivity|].
    now apply unprocessed_in.
Qed.

Lemma create_pdf_second_run_witness :
  exists fs',
    apply_log_writes (files world_fresh) calls_fresh = Ok fs'
    /\ forall (w' : world) (output_filename' : string),
         files w' !! log_file_path = fs' !! log_file_path ->
         create_pdf unit_width letter w' two_items output_filename' margins
           log_file_path
         = Ok ([Canvas output_filename'; setFont "Helvetica-Bold" 14;
                drawString (Margins.left margins)
                  (snd letter - Margins.top margins - 60)
                  "Index of Episodes";
                setFont "Helvetica" 12]
               ++ index_calls (fst letter) (snd letter) margins
                    (snd letter - Margins.top margins - 60 - 16) two_items
               ++ [showPage; save]).
Proof.
  apply (create_pdf_second_run unit_width letter world_fresh two_items
           output_pdf margins log_file_path calls_fresh).
  - vm_compute. reflexivity.
  - split; [vm_compute; discriminate|]. left. reflexivity.
Defined.

(** ** Files with the same number *)

Lemma insert_by_filter {A : Type} (key : A -> Z) (x : A) (l : list A)
  (k : Z) :
  List.filter (fun a => key a =? k) (insert_by key x l)
  = if key x =? k then x :: List.filter (fun a => key a =? k) l
    else List.filter (fun a => key a =? k) l.
Proof.
  induction l as [|z l IH]; cbn [insert_by List.filter].
  - reflexivity.
  - destruct (Z.leb_spec (key x) (key z)) as [Hle|Hgt];
      cbn [List.filter]; [reflexivity|].
    rewrite IH.
    destruct (Z.eqb_spec (key z) k), (Z.eqb_spec (key x) k);
      (reflexivity || lia).
Qed.

Lemma sorted_filter {A : Type} (key : A -> Z) (l : list A) (k : Z) :
  List.filter (fun a => key a =? k) (sorted l key)
  = List.filter (fun a => key a =? k) l.
Proof.
  unfold sorted. induction l as [|x l IH]; [reflexivity|].
  cbn [foldr List.filter]. rewrite insert_by_filter, IH. reflexivity.
Qed.

Lemma selected_filter (w : world) (processed : gset string)
  (names : list string) (k : Z) :
  List.filter (fun it => item_key it =? k) (selected w processed names)
  = selected w processed (List.filter (fun f => sort_key f =? k) names).
Proof.
  induction names as [|name names IH]; [reflexivity|].
  unfold selected in *. cbn [flat_map List.filter].
  rewrite List.filter_app, IH.
  assert (Hone :
    List.filter (fun it => item_key it =? k) (selected_one w processed name)
    = if sort_key name =? k then selected_one w processed name else []).
  { unfold selected_one. destruct (Py.endswith name ".txt");
      [|now destruct (sort_key name =? k)].
    destruct (bool_decide _); [now destruct (sort_key name =? k)|].
    destruct (read_file_content w name);
      [|now destruct (sort_key name =? k)].
    cbn [List.filter]. unfold item_key, sort_key. cbn [fst].
    now destruct (default 0 (extract_episode_number name) =? k). }
  rewrite Hone. now destruct (sort_key name =? k).
Qed.

(** X19: files with the same number keep the order of the directory listing:
    the transcripts that share an order key are those the loop selects from
    the names with that key, taken in the order [os.listdir] gave them. *)
Theorem transcripts_ties (w : world) (ts : list item) (k : Z) :
  transcripts w = Ok ts ->
  List.filter (fun it => item_key it =? k) ts
  = selected w (processed_or_empty w)
      (List.filter (fun f => sort_key f =? k) (listdir w)).
Proof.
  unfold transcripts. intros H. apply fold_add_transcript_ok in H as ->.
  cbn [app]. now rewrite selected_filter, (sorted_filter sort_key).
Qed.

Lemma transcripts_ties_witness :
  List.filter (fun it => item_key it =? 1)
    [(Some 1, "second take"); (Some 1, "first take"); (Some 3, "three")]
  = selected
      {| listdir := ["3.txt"; "b1.txt"; "a01.txt"];
         files := list_to_map [("3.txt", File "three");
                               ("a01.txt", File "first take");
                               ("b1.txt", File "second take")] |}
      (processed_or_empty
         {| listdir := ["3.txt"; "b1.txt"; "a01.txt"];
            files := list_to_map [("3.txt", File "three");
                                  ("a01.txt", File "first take");
                                  ("b1.txt", File "second take")] |})
      (List.filter (fun f => sort_key f =? 1) ["3.txt"; "b1.txt"; "a01.txt"]).
Proof.
  apply (transcripts_ties
           {| listdir := ["3.txt"; "b1.txt"; "a01.txt"];
              files := list_to_map [("3.txt", File "three");
                                    ("a01.txt", File "first take");
                                    ("b1.txt", File "second take")] |}).
  vm_compute. reflexivity.
Defined.

(** ** The script as a whole *)

(** X20: in a run of the script no transcript is skipped by [create_pdf]: the
    list was filtered with the same log before the call, so every
    transcript in it is indexed, drawn in full, written to the log and
    closed by a page break, in the order of the list. *)
Theorem main_draws_every_transcript
  (stringWidth : string -> string -> Z -> Q) (w : world)
  (calls : list call) :
  main stringWidth w = Ok calls ->
  exists ts,
    transcripts w = Ok ts
    /\ calls
       = [Canvas output_pdf; setFont "Helvetica-Bold" 14;
          drawString 50 682 "Index of Episodes"; setFont "Helvetica" 12]
         ++ index_calls 612 792 margins 666 ts
         ++ [showPage]
         ++ concat
              (map (fun it =>
                      item_draws stringWidth 612 792 margins it
                      ++ [log_write log_file_path (Py.str (fst it) +:+ nl);
                          showPage]) ts)
         ++ [save].
Proof.
  unfold main. intros Hrun.
  destruct (transcripts w) as [ts|e] eqn:Ht; [|discriminate].
  simpl in Hrun. exists ts. split; [reflexivity|].
  apply create_pdf_processed in Hrun as (processed & Hp & ->).
  cbn [fst snd letter]. do 3 f_equal. f_equal. f_equal.
  apply map_ext_in. intros [ep content] Hin. unfold item_calls.
  apply (transcripts_member w ts ep content Ht) in Hin
    as (name & _ & _ & _ & Hnot & _).
  unfold processed_or_empty in Hnot. rewrite Hp in Hnot.
  now rewrite bool_decide_eq_false_2.
Qed.

Lemma main_draws_every_transcript_witness :
  exists ts,
    transcripts demo_world = Ok ts
    /\ match main unit_width demo_world with
       | Ok calls => calls
       | Raise _ => []
       end
       = [Canvas output_pdf; setFont "Helvetica-Bold" 14;
          drawString 50 682 "Index of Episodes"; setFont "Helvetica" 12]
         ++ index_calls 612 792 margins 666 ts
         ++ [showPage]
         ++ concat
              (map (fun it =>
                      item_draws unit_width 612 792 margins it
                      ++ [log_write log_file_path (Py.str (fst it) +:+ nl);
                          showPage]) ts)
         ++ [save].
Proof.
  apply (main_draws_every_transcript unit_width demo_world).
  vm_compute. reflexivity.
Defined.

(** ** The first page of an item *)

(** X21: a body that fits stays on one page: for an item that is not
    skipped and whose wrapped body has at most [first_page_lines] lines, one
    round of the transcript loop draws header, footer and title, then every
    line one under the other from 14 below the title, with no page break
    before the log write and the page break that ends the item. *)
Theorem episode_first_page
  (stringWidth : string -> string -> Z -> Q) (letter : Z * Z)
  (processed : gset string) (m : Margins.t) (log : string)
  (out : list call) (episode_number : option Z) (text : string) :
  let start := snd letter - Margins.top m - 60 in
  let wrapped_text :=
    wrap_text stringWidth text
      (inject_Z (fst letter - Margins.left m - Margins.right m))
      "Helvetica" 12 in
  Py.str episode_number ∉ processed ->
  (length wrapped_text <= first_page_lines letter m)%nat ->
  episode stringWidth letter processed m log out (episode_number, text)
  = out
    ++ add_page_header_footer letter episode_number m
    ++ [setFont "Helvetica-Bold" 14;
        drawString (Margins.left m) start
          ("Episode " +:+ Py.str episode_number);
        setFont "Helvetica" 12]
    ++ draws_from m (start - 14) wrapped_text
    ++ [log_write log (Py.str episode_number +:+ nl); showPage].
Proof.
  destruct letter as [pw ph]. cbn [fst snd]. cbv zeta. intros Hnot Hlen.
  rewrite (episode_eq stringWidth pw ph m log). unfold item_calls.
  cbn [fst snd]. rewrite bool_decide_eq_false_2 by assumption.
  unfold item_draws, wrapped_body. cbn [fst snd].
  rewrite body_calls_first_page by exact Hlen.
  rewrite <- !app_assoc. reflexivity.
Qed.

Lemma episode_first_page_witness :
  episode unit_width letter ∅ margins log_file_path [] (Some 7, "hello")
  = []
    ++ add_page_header_footer letter (Some 7) margins
    ++ [setFont "Helvetica-Bold" 14;
        drawString (Margins.left margins)
          (snd letter - Margins.top margins - 60)
          ("Episode " +:+ Py.str (Some 7));
        setFont "Helvetica" 12]
    ++ draws_from margins (snd letter - Margins.top margins - 60 - 14)
         (wrap_text unit_width "hello"
            (inject_Z (fst letter - Margins.left margins
                       - Margins.right margins)) "Helvetica" 12)
    ++ [log_write log_file_path (Py.str (Some 7) +:+ nl); showPage].
Proof.
  apply (episode_first_page unit_width letter ∅ margins log_file_path []
           (Some 7) "hello").
  - apply not_elem_of_empty.
  - vm_compute. lia.
Defined.
